(** * deepnano2_caller: a shallow embedding of scripts/deepnano2_caller.py

    The script reads nanopore container files, rescales every read's raw
    signal, hands it to the decoder and prints FASTA/FASTQ records.  The
    embedding follows the script function by function.  Python exceptions are
    values of [exn]; code that can raise returns a [result]; the orchestrating
    loops of [__main__] run in a small state-and-exception monad over the
    script's module globals, the output directory and the diagnostic stream. *)

From Stdlib Require Import ZArith QArith Qround String Ascii List Lia.
From Stdlib Require Import DecimalString SpecFloat.
From Stdlib Require Import Lqa.
From stdpp Require Import base option list gmap strings.

Local Open Scope Z_scope.

(** ** Python exceptions and fallible computations *)

Module Py.

(** The exception classes the script can meet.  [OSError] stands for the whole
    class (FileNotFoundError, PermissionError, ... are subclasses and are
    caught by [except OSError]); no other constructor is a subclass of it. *)
Inductive exn : Type :=
  | OSError | KeyError | IndexError | ValueError | OverflowError
  | TypeError | AttributeError | UnicodeDecodeError | NameError
  | AssertionError.

Definition is_OSError (e : exn) : bool :=
  match e with OSError => true | _ => false end.

Inductive result (A : Type) : Type :=
  | Ok (a : A)
  | Raise (e : exn).
Arguments Ok {A} a.
Arguments Raise {A} e.

Definition rbind {A B} (r : result A) (k : A -> result B) : result B :=
  match r with Ok a => k a | Raise e => Raise e end.

Definition is_Ok {A} (r : result A) : bool :=
  match r with Ok _ => true | Raise _ => false end.

(** [try: body / except OSError: return handler]. *)
Definition except_OSError {A} (body : result A) (handler : A) : result A :=
  match body with
  | Ok a => Ok a
  | Raise e => if is_OSError e then Ok handler else Raise e
  end.

End Py.
Import Py.

#[export] Instance result_bind : MBind result := fun A B k r => rbind r k.
#[export] Instance result_ret : MRet result := fun A a => Ok a.

(** ** The part of numpy the script uses *)

Module Numpy.

(** The float32 arithmetic of numpy, as an interface: the script only converts
    integer samples, takes medians, subtracts, takes absolute values,
    multiplies by the scale factor and divides. *)
Class Float32 (F : Type) : Type := {
  of_int : Z -> F;             (* one sample through astype(np.float32) *)
  median : list F -> F;        (* np.median of a float32 array *)
  fsub : F -> F -> F;
  fabs : F -> F;
  fmul : F -> F -> F;
  fdiv : F -> F -> F;
  f_1_4826 : F                 (* the literal 1.4826 *)
}.

(** IEEE 754 binary32, from the Standard Library's executable specification of
    floating-point numbers (precision 24, maximal exponent 128).  Every
    operation rounds to nearest, ties to even; the product with the scale
    factor is taken in binary32, the factor being the binary32 nearest to
    1.4826. *)
Module B32.

Definition prec : Z := 24.
Definition emax : Z := 128.
Definition t : Type := spec_float.

Definition of_Z (z : Z) : t := binary_normalize prec emax z 0 false.
Definition sub : t -> t -> t := SFsub prec emax.
Definition add : t -> t -> t := SFadd prec emax.
Definition mul : t -> t -> t := SFmul prec emax.
Definition div : t -> t -> t := SFdiv prec emax.
Definition abs : t -> t := SFabs.

Definition is_nan (x : t) : bool :=
  match x with S754_nan => true | _ => false end.

Fixpoint insert_sorted (x : t) (l : list t) : list t :=
  match l with
  | [] => [x]
  | y :: l' => if SFleb x y then x :: l else y :: insert_sorted x l'
  end.

Definition sort (l : list t) : list t := foldr insert_sorted [] l.

(** np.median: NaN for an empty array or one holding a NaN; otherwise the mean
    (in float32) of the middle element, or of the two middle elements, of the
    sorted array. *)
Definition median (l : list t) : t :=
  if existsb is_nan l then S754_nan
  else
    let s := sort l in
    let n := length s in
    let mid := Nat.div n 2 in
    if Nat.eqb n 0 then S754_nan
    else if Nat.even n
         then div (add (nth (mid - 1) s S754_nan) (nth mid s S754_nan)) (of_Z 2)
         else div (nth mid s S754_nan) (of_Z 1).

Definition factor : t := div (of_Z 14826) (of_Z 10000).

End B32.

(** IEEE 754 binary64 (precision 53, maximal exponent 1024): numpy's float64
    and Python's float.  The sampling rate is stored in this format, and
    [start_time / sampling_rate] is a division in it, rounded to nearest, ties
    to even, after the integer operand has been converted to it. *)
Module B64.

Definition prec : Z := 53.
Definition emax : Z := 1024.
Definition t : Type := spec_float.

Definition div : t -> t -> t := SFdiv prec emax.

(** The binary64 number nearest to a rational, ties to even, as the rounded
    quotient of its numerator by its denominator (the division takes
    significands of any size): the conversion of an integer operand, be it
    beyond 2^53; the value of a binary64 number is left as it is. *)
Definition of_Q (q : Q) : t :=
  let num :=
    match Qnum q with
    | Z0 => S754_zero false
    | Zpos n => S754_finite false n 0
    | Zneg n => S754_finite true n 0
    end in
  div num (S754_finite false (Qden q) 0).

End B64.

#[export] Instance binary32 : Float32 B32.t := {|
  of_int := B32.of_Z;
  median := B32.median;
  fsub := B32.sub;
  fabs := B32.abs;
  fmul := B32.mul;
  fdiv := B32.div;
  f_1_4826 := B32.factor
|}.

End Numpy.
Import Numpy.

(** ** Signal normalisation: [med_mad] and [rescale_signal] *)

Section Normalise.

Context {F : Type} `{Float32 F}.

(** [med_mad(x, factor=1.4826)]. *)
Definition med_mad (x : list F) (factor : F) : F * F :=
  let med := median x in
  let mad := fmul (median (map fabs (map (fun v => fsub v med) x))) factor in
  (med, mad).

(** [rescale_signal(signal)]: the conversion makes a new array, which the two
    in-place updates then rewrite element by element. *)
Definition rescale_signal (signal : list Z) : list F :=
  let signal := map of_int signal in
  let '(med, mad) := med_mad signal f_1_4826 in
  let signal := map (fun v => fsub v med) signal in
  let signal := map (fun v => fdiv v mad) signal in
  signal.






End Normalise.


(** ** Python strings and POSIX paths *)

(** A Python [str] is modelled by its UTF-8 encoding, a [bytes] object by its
    bytes; both are Rocq strings. *)

Module Str.

Definition newline : string := String (ascii_of_nat 10) EmptyString.

(** [str(n)] and ["%d" % n] for an integer. *)
Definition of_Z (n : Z) : string := NilZero.string_of_int (Z.to_int n).

(** ["%02d" % n]. *)
Definition pad2 (n : Z) : string :=
  if (0 <=? n) && (n <? 10) then "0" +:+ of_Z n else of_Z n.

(** [s.split(sep)[0]] for a one-character separator: the text before the first
    separator, the whole string when there is none. *)
Fixpoint split_first (sep : ascii) (s : string) : string :=
  match s with
  | EmptyString => EmptyString
  | String c s' => if Ascii.eqb c sep then EmptyString else String c (split_first sep s')
  end.

(** [s[s.rfind(sep) + 1:]] and [s[:s.rfind(sep) + 1]]. *)
Fixpoint after_last (sep : ascii) (s : string) : string :=
  match s with
  | EmptyString => EmptyString
  | String c s' =>
      if existsb (Ascii.eqb sep) (list_ascii_of_string s') then after_last sep s'
      else if Ascii.eqb c sep then s' else s
  end.

Fixpoint upto_last (sep : ascii) (s : string) : string :=
  match s with
  | EmptyString => EmptyString
  | String c s' =>
      if existsb (Ascii.eqb sep) (list_ascii_of_string s') then String c (upto_last sep s')
      else if Ascii.eqb c sep then String c EmptyString else EmptyString
  end.

(** [s.rstrip(c)]. *)
Fixpoint rstrip (c : ascii) (s : string) : string :=
  match s with
  | EmptyString => EmptyString
  | String a s' =>
      match rstrip c s' with
      | EmptyString => if Ascii.eqb a c then EmptyString else String a EmptyString
      | t => String a t
      end
  end.

Definition all_chars (c : ascii) (s : string) : bool :=
  forallb (Ascii.eqb c) (list_ascii_of_string s).

Definition startswith (c : ascii) (s : string) : bool :=
  match s with String a _ => Ascii.eqb a c | EmptyString => false end.

Fixpoint endswith (c : ascii) (s : string) : bool :=
  match s with
  | EmptyString => false
  | String a EmptyString => Ascii.eqb a c
  | String _ s' => endswith c s'
  end.

(** [bytes.decode('utf-8')]: the bytes must be well-formed UTF-8 (RFC 3629);
    the text they decode to is then represented by the same bytes. *)
Definition byte_in (lo hi : nat) (c : ascii) : bool :=
  let n := nat_of_ascii c in (lo <=? n)%nat && (n <=? hi)%nat.

Definition cont (c : ascii) : bool := byte_in 128 191 c.

Fixpoint utf8_valid_fuel (fuel : nat) (l : list ascii) : bool :=
  match fuel with
  | O => false
  | S fuel =>
      match l with
      | [] => true
      | a :: l1 =>
          if byte_in 0 127 a then utf8_valid_fuel fuel l1
          else if byte_in 194 223 a then
            match l1 with
            | b :: l2 => cont b && utf8_valid_fuel fuel l2
            | _ => false
            end
          else if byte_in 224 239 a then
            match l1 with
            | b :: c :: l3 =>
                (if byte_in 224 224 a then byte_in 160 191 b
                 else if byte_in 237 237 a then byte_in 128 159 b
                 else cont b)
                && cont c && utf8_valid_fuel fuel l3
            | _ => false
            end
          else if byte_in 240 244 a then
            match l1 with
            | b :: c :: d :: l4 =>
                (if byte_in 240 240 a then byte_in 144 191 b
                 else if byte_in 244 244 a then byte_in 128 143 b
                 else cont b)
                && cont c && cont d && utf8_valid_fuel fuel l4
            | _ => false
            end
          else false
      end
  end.

Definition utf8_valid (b : string) : bool :=
  let l := list_ascii_of_string b in utf8_valid_fuel (S (length l)) l.

Definition decode_utf8 (b : string) : result string :=
  if utf8_valid b then Ok b else Raise UnicodeDecodeError.

(** The characters of a text, as code points: an ASCII character takes one
    byte, the others two to four (RFC 3629).  Bytes that are not well-formed
    UTF-8 are the encoding of no text; from the first such byte on they give
    the code point [-1], which is no character. *)
Definition code (c : ascii) : Z := Z.of_nat (nat_of_ascii c).

Fixpoint code_points (l : list ascii) : list Z :=
  match l with
  | [] => []
  | a :: l1 =>
      if byte_in 0 127 a then code a :: code_points l1
      else
        match l1 with
        | [] => [-1]
        | b :: l2 =>
            if byte_in 194 223 a then
              if cont b
              then ((code a - 192) * 64 + (code b - 128)) :: code_points l2
              else [-1]
            else
              match l2 with
              | [] => [-1]
              | c :: l3 =>
                  if byte_in 224 239 a then
                    if (if byte_in 224 224 a then byte_in 160 191 b
                        else if byte_in 237 237 a then byte_in 128 159 b
                        else cont b)
                       && cont c
                    then ((code a - 224) * 4096 + (code b - 128) * 64
                          + (code c - 128)) :: code_points l3
                    else [-1]
                  else
                    match l3 with
                    | [] => [-1]
                    | d :: l4 =>
                        if byte_in 240 244 a
                           && (if byte_in 240 240 a then byte_in 144 191 b
                               else if byte_in 244 244 a then byte_in 128 143 b
                               else cont b)
                           && cont c && cont d
                        then ((code a - 240) * 262144 + (code b - 128) * 4096
                              + (code c - 128) * 64 + (code d - 128))
                             :: code_points l4
                        else [-1]
                    end
              end
        end
  end.

End Str.

Module PosixPath.

Definition slash : ascii := "/"%char.

(** [os.path.split(p)]. *)
Definition split (p : string) : string * string :=
  let head := Str.upto_last slash p in
  let tail := Str.after_last slash p in
  let head :=
    if negb (String.eqb head "") && negb (Str.all_chars slash head)
    then Str.rstrip slash head else head in
  (head, tail).

(** [os.path.join(a, b)]. *)
Definition join (a b : string) : string :=
  if Str.startswith slash b then b
  else if String.eqb a "" || Str.endswith slash a then a +:+ b
  else a +:+ "/" +:+ b.

End PosixPath.

(** ** The part of the datetime module the script uses *)

Module Datetime.

(** A Python float as the time arithmetic sees it: a finite binary64 number,
    given by its value, an infinity, or a NaN.  The sign of a zero or of an
    infinity makes no difference to [timedelta]. *)
Inductive pyfloat : Type :=
  | Finite (q : Q)
  | Infinite
  | NaN.

(** A binary64 number as a Python float. *)
Definition of_float64 (x : B64.t) : pyfloat :=
  match x with
  | S754_zero _ => Finite 0
  | S754_finite s m e => Finite (inject_Z (cond_Zopp s (Zpos m)) * 2 ^ e)
  | S754_infinity _ => Infinite
  | S754_nan => NaN
  end.

Record datetime : Type := mkDatetime {
  year : Z; month : Z; day : Z;
  hour : Z; minute : Z; second : Z; microsecond : Z
}.

(** A timedelta, normalised as CPython keeps it:
    [0 <= seconds < 86400] and [0 <= microseconds < 1000000]. *)
Record timedelta : Type := mkTimedelta {
  days : Z; seconds : Z; microseconds : Z
}.

Definition _MAXORDINAL : Z := 3652059.
Definition _DI400Y : Z := 146097.
Definition _DI100Y : Z := 36524.
Definition _DI4Y : Z := 1461.

Definition _DAYS_IN_MONTH (month : Z) : Z :=
  match month with
  | 1 => 31 | 2 => 28 | 3 => 31 | 4 => 30 | 5 => 31 | 6 => 30
  | 7 => 31 | 8 => 31 | 9 => 30 | 10 => 31 | 11 => 30 | 12 => 31
  | _ => -1
  end.

Definition _DAYS_BEFORE_MONTH (month : Z) : Z :=
  match month with
  | 1 => 0 | 2 => 31 | 3 => 59 | 4 => 90 | 5 => 120 | 6 => 151
  | 7 => 181 | 8 => 212 | 9 => 243 | 10 => 273 | 11 => 304 | 12 => 334
  | _ => -1
  end.

Definition _is_leap (year : Z) : bool :=
  (year mod 4 =? 0) && (negb (year mod 100 =? 0) || (year mod 400 =? 0)).

Definition _days_before_year (year : Z) : Z :=
  let y := year - 1 in
  y * 365 + y / 4 - y / 100 + y / 400.

Definition _days_in_month (year month : Z) : Z :=
  if (month =? 2) && _is_leap year then 29 else _DAYS_IN_MONTH month.

Definition _days_before_month (year month : Z) : Z :=
  _DAYS_BEFORE_MONTH month + (if (2 <? month) && _is_leap year then 1 else 0).

Definition _ymd2ord (year month day : Z) : Z :=
  _days_before_year year + _days_before_month year month + day.

Definition _ord2ymd (n : Z) : Z * Z * Z :=
  let n := n - 1 in
  let n400 := n / _DI400Y in
  let n := n mod _DI400Y in
  let year := n400 * 400 + 1 in
  let n100 := n / _DI100Y in
  let n := n mod _DI100Y in
  let n4 := n / _DI4Y in
  let n := n mod _DI4Y in
  let n1 := n / 365 in
  let n := n mod 365 in
  let year := year + n100 * 100 + n4 * 4 + n1 in
  if (n1 =? 4) || (n100 =? 4) then (year - 1, 12, 31)
  else
    let leapyear := (n1 =? 3) && (negb (n4 =? 24) || (n100 =? 3)) in
    let month := Z.shiftr (n + 50) 5 in
    let preceding :=
      _DAYS_BEFORE_MONTH month + (if (2 <? month) && leapyear then 1 else 0) in
    let '(month, preceding) :=
      if n <? preceding
      then (month - 1,
            preceding - (_DAYS_IN_MONTH (month - 1)
                         + (if (month - 1 =? 2) && leapyear then 1 else 0)))
      else (month, preceding) in
    (year, month, n - preceding + 1).

(** The range checks of the [datetime] constructor. *)
Definition check_fields (d : datetime) : bool :=
  (1 <=? year d) && (year d <=? 9999)
  && (1 <=? month d) && (month d <=? 12)
  && (1 <=? day d) && (day d <=? _days_in_month (year d) (month d))
  && (0 <=? hour d) && (hour d <=? 23)
  && (0 <=? minute d) && (minute d <=? 59)
  && (0 <=? second d) && (second d <=? 59)
  && (0 <=? microsecond d) && (microsecond d <=? 999999).

Definition toordinal (d : datetime) : Z := _ymd2ord (year d) (month d) (day d).

(** Normalisation of a count of microseconds into a timedelta. *)
Definition timedelta_of_microseconds (us : Z) : timedelta :=
  let s := us / 1000000 in
  mkTimedelta (s / 86400) (s mod 86400) (us mod 1000000).

Definition total_microseconds (t : timedelta) : Z :=
  (days t * 86400 + seconds t) * 1000000 + microseconds t.

(** Python's [round] on a float: to the nearest integer, ties to even. *)
Definition round_half_even (x : Q) : Z :=
  let f := Qfloor x in
  match Qcompare (x - inject_Z f) (1 # 2) with
  | Lt => f
  | Gt => f + 1
  | Eq => if Z.even f then f else f + 1
  end.

(** [timedelta(seconds=x)] for a float [x]: the whole seconds are kept, the
    fraction is rounded to whole microseconds.  Beyond 999999999 days the
    constructor raises OverflowError; an infinity raises OverflowError and a
    NaN ValueError when the float is converted.  The rounding is taken here
    on the value of [x]; CPython multiplies the fraction by 10^6 in binary64
    before it rounds, which can give the microsecond next to this one, within
    the same second. *)
Definition timedelta_seconds (x : pyfloat) : result timedelta :=
  match x with
  | NaN => Raise ValueError
  | Infinite => Raise OverflowError
  | Finite q =>
      let t := timedelta_of_microseconds (round_half_even (q * inject_Z 1000000)) in
      if Z.abs (days t) <=? 999999999 then Ok t else Raise OverflowError
  end.

(** [datetime + timedelta]. *)
Definition add (d : datetime) (other : timedelta) : result datetime :=
  let self :=
    mkTimedelta (toordinal d)
                (hour d * 3600 + minute d * 60 + second d) (microsecond d) in
  let delta :=
    timedelta_of_microseconds (total_microseconds self + total_microseconds other) in
  let hour := seconds delta / 3600 in
  let rem := seconds delta mod 3600 in
  let minute := rem / 60 in
  let second := rem mod 60 in
  if (0 <? days delta) && (days delta <=? _MAXORDINAL)
  then
    let '(y, m, dd) := _ord2ymd (days delta) in
    Ok (mkDatetime y m dd hour minute second (microseconds delta))
  else Raise OverflowError.

(** *** [strptime] for the format ['%Y-%m-%dT%H:%M:%SZ']

    The format compiles to the regular expression
    [(\d\d\d\d)-(1[0-2]|0[1-9]|[1-9])-(3[0-1]|[1-2]\d|0[1-9]|[1-9]| [1-9])T
     (2[0-3]|[0-1]\d|\d):([0-5]\d|\d):(6[0-1]|[0-5]\d|\d)Z], matched ignoring
    case against the whole string, character by character.  Every field
    matches only digits and blanks and is followed by a literal that is
    neither, so a field is the run of digits and blanks up to the next literal
    and has to match as a whole.

    [\d], like [int()], which converts the fields, takes every decimal digit
    of Unicode (general category Nd), a class such as [[0-5]] only the ASCII
    digits it names.  The ten digits of a script are consecutive code points;
    [decimal_zeros] lists the zero of each, for Unicode 14.0, the version of
    CPython 3.11. *)

Definition decimal_zeros : list Z :=
  [48; 1632; 1776; 1984; 2406; 2534; 2662; 2790; 2918; 3046; 3174; 3302; 3430;
   3558; 3664; 3792; 3872; 4160; 4240; 6112; 6160; 6470; 6608; 6784; 6800; 6992;
   7088; 7232; 7248; 42528; 43216; 43264; 43472; 43504; 43600; 44016; 65296;
   66720; 68912; 69734; 69872; 69942; 70096; 70384; 70736; 70864; 71248; 71360;
   71472; 71904; 72016; 72784; 73040; 73120; 92768; 92864; 93008; 120782;
   120792; 120802; 120812; 120822; 123200; 123632; 125264; 130032].

(** [unicodedata.decimal(c)]. *)
Definition decimal (c : Z) : option Z :=
  z ← find (fun z => (z <=? c) && (c <=? z + 9)) decimal_zeros; Some (c - z).

(** [\d]. *)
Definition is_digit (c : Z) : bool :=
  match decimal c with Some _ => true | None => false end.

(** A class of ASCII digits, [[lo-hi]]. *)
Definition digit_in (lo hi : Z) (c : Z) : bool := (48 + lo <=? c) && (c <=? 48 + hi).

Definition is_blank (c : Z) : bool := c =? 32.
Definition in_field (c : Z) : bool := is_digit c || is_blank c.

Definition digit_value (c : Z) : Z :=
  match decimal c with Some v => v | None => 0 end.

(** [int(tok)] for a run of digits. *)
Definition int_of_digits (l : list Z) : Z :=
  fold_left (fun acc c => 10 * acc + digit_value c) l 0.

Fixpoint span (p : Z -> bool) (l : list Z) : list Z * list Z :=
  match l with
  | [] => ([], [])
  | c :: l' =>
      if p c then let '(a, b) := span p l' in (c :: a, b) else ([], l)
  end.

(** [\d\d\d\d] *)
Definition field_Y (tok : list Z) : option Z :=
  if (length tok =? 4)%nat && forallb is_digit tok then Some (int_of_digits tok) else None.

(** [1[0-2]|0[1-9]|[1-9]] *)
Definition field_m (tok : list Z) : option Z :=
  match tok with
  | [a] => if digit_in 1 9 a then Some (int_of_digits tok) else None
  | [a; b] =>
      if (digit_in 1 1 a && digit_in 0 2 b) || (digit_in 0 0 a && digit_in 1 9 b)
      then Some (int_of_digits tok) else None
  | _ => None
  end.

(** [3[0-1]|[1-2]\d|0[1-9]|[1-9]| [1-9]]; [int()] skips the blank. *)
Definition field_d (tok : list Z) : option Z :=
  match tok with
  | [a] => if digit_in 1 9 a then Some (int_of_digits tok) else None
  | [a; b] =>
      if (digit_in 3 3 a && digit_in 0 1 b) || (digit_in 1 2 a && is_digit b)
         || (digit_in 0 0 a && digit_in 1 9 b)
      then Some (int_of_digits tok)
      else if is_blank a && digit_in 1 9 b then Some (int_of_digits [b])
      else None
  | _ => None
  end.

(** [2[0-3]|[0-1]\d|\d] *)
Definition field_H (tok : list Z) : option Z :=
  match tok with
  | [a] => if is_digit a then Some (int_of_digits tok) else None
  | [a; b] =>
      if (digit_in 2 2 a && digit_in 0 3 b) || (digit_in 0 1 a && is_digit b)
      then Some (int_of_digits tok) else None
  | _ => None
  end.

(** [[0-5]\d|\d] *)
Definition field_M (tok : list Z) : option Z :=
  match tok with
  | [a] => if is_digit a then Some (int_of_digits tok) else None
  | [a; b] => if digit_in 0 5 a && is_digit b then Some (int_of_digits tok) else None
  | _ => None
  end.

(** [6[0-1]|[0-5]\d|\d] *)
Definition field_S (tok : list Z) : option Z :=
  match tok with
  | [a] => if is_digit a then Some (int_of_digits tok) else None
  | [a; b] =>
      if (digit_in 6 6 a && digit_in 0 1 b) || (digit_in 0 5 a && is_digit b)
      then Some (int_of_digits tok) else None
  | _ => None
  end.

(** A literal of the format, matched ignoring case. *)
Definition literal (upper lower : ascii) (l : list Z) : option (list Z) :=
  match l with
  | c :: l' =>
      if (c =? Str.code upper) || (c =? Str.code lower) then Some l' else None
  | [] => None
  end.

Definition field (f : list Z -> option Z) (l : list Z) : option (Z * list Z) :=
  let '(tok, rest) := span in_field l in
  v ← f tok; Some (v, rest).

Definition match_format (l : list Z) : option datetime :=
  '(year, l) ← field field_Y l;
  l ← literal "-" "-" l;
  '(month, l) ← field field_m l;
  l ← literal "-" "-" l;
  '(day, l) ← field field_d l;
  l ← literal "T" "t" l;
  '(hour, l) ← field field_H l;
  l ← literal ":" ":" l;
  '(minute, l) ← field field_M l;
  l ← literal ":" ":" l;
  '(second, l) ← field field_S l;
  l ← literal "Z" "z" l;
  match l with
  | [] => Some (mkDatetime year month day hour minute second 0)
  | _ => None
  end.

(** [datetime.strptime(s, '%Y-%m-%dT%H:%M:%SZ')]: a string that does not match,
    and a match whose fields are out of range (a 30th of February, second 60,
    year 0), raise ValueError. *)
Definition strptime (s : string) : result datetime :=
  match match_format (Str.code_points (list_ascii_of_string s)) with
  | Some d => if check_fields d then Ok d else Raise ValueError
  | None => Raise ValueError
  end.

(** [d.strftime('%Y-%m-%dT%H:%M:%SZ')]; the C library prints a year below
    1000 without padding. *)
Definition strftime (d : datetime) : string :=
  Str.of_Z (year d) +:+ "-" +:+ Str.pad2 (month d) +:+ "-" +:+ Str.pad2 (day d)
  +:+ "T" +:+ Str.pad2 (hour d) +:+ ":" +:+ Str.pad2 (minute d) +:+ ":"
  +:+ Str.pad2 (second d) +:+ "Z".

(** Seconds elapsed since the start of day 0 of the proleptic calendar. *)
Definition to_seconds (d : datetime) : Z :=
  toordinal d * 86400 + hour d * 3600 + minute d * 60 + second d.

End Datetime.

(** [add_time_seconds(base_time_str, delta_seconds)]. *)
Definition add_time_seconds (base_time_str : string) (delta_seconds : Datetime.pyfloat)
  : result string :=
  base_time ← Datetime.strptime base_time_str;
  delta ← Datetime.timedelta_seconds delta_seconds;
  base_time ← Datetime.add base_time delta;
  Ok (Datetime.strftime base_time).

(** ** Container files, as the ont_fast5_api library presents them *)

Module Fast5.

(** An HDF5 attribute value as h5py returns it. *)
Inductive attr : Type :=
  | AInt (n : Z)
  | AFloat (q : Q)
  | ABytes (b : string).

Record read_info : Type := mkReadInfo {
  ri_read_number : Z;
  ri_start_time : Z
}.

(** One read: [handle] maps the name of a group below the read to the group's
    attributes; [raw_data] is what [get_raw_data()] returns or raises. *)
Record read : Type := mkRead {
  read_id : string;
  run_id : result string;
  global_key : string;
  handle : gmap string (gmap string attr);
  status_read_info : list read_info;
  raw_data : result (list Z)
}.

(** An opened container file: what [check_file_type] returns or raises, the
    reads [get_reads()] yields, and the exception, if any, that ends the
    iteration after them. *)
Record file : Type := mkFile {
  file_type : result string;
  reads : list read;
  reads_raise : option exn
}.

(** The input files by path; a path that is absent cannot be opened, one that
    is present may still make the library raise. *)
Definition get_fast5_file (disk : gmap string (result file)) (filename : string)
  : result file :=
  match disk !! filename with
  | Some f => f
  | None => Raise OSError
  end.

(** [group.attrs[key]] and [handle[name]]. *)
Definition getitem {V} (m : gmap string V) (key : string) : result V :=
  match m !! key with
  | Some v => Ok v
  | None => Raise KeyError
  end.

(** [l[0]]. *)
Definition first {A} (l : list A) : result A :=
  match l with
  | x :: _ => Ok x
  | [] => Raise IndexError
  end.

(** [value.decode('utf-8')]: only bytes have the method. *)
Definition decode (v : attr) : result string :=
  match v with
  | ABytes b => Str.decode_utf8 b
  | _ => Raise AttributeError
  end.

(** [a / b] on numpy scalars: both operands are taken to binary64 and divided
    there.  A zero divisor gives an infinity, or a NaN under a zero, and a
    warning, no exception. *)
Definition as_number (v : attr) : result Q :=
  match v with
  | AInt n => Ok (inject_Z n)
  | AFloat q => Ok q
  | ABytes _ => Raise TypeError
  end.

Definition true_divide (a b : attr) : result Datetime.pyfloat :=
  x ← as_number a;
  y ← as_number b;
  Ok (Datetime.of_float64 (B64.div (B64.of_Q x) (B64.of_Q y))).

End Fast5.
Import Fast5.

(** ** The script *)

(** The tuple [call_file] appends for a read. *)
Record call_result : Type := mkCall {
  cr_read_id : string;
  cr_run_id : string;
  cr_read_number : attr;
  cr_channel_number : string;
  cr_start_time : string;
  cr_basecall : string;
  cr_qual : string
}.

(** An open or closed text stream on the file [name]. *)
Record file_object : Type := mkFileObject {
  name : string;
  closed : bool
}.

(** A line on the diagnostic stream (the elapsed wall-clock time that the
    sequential branch adds to it is left out). *)
Record progress : Type := mkProgress {
  p_done : Z;
  p_total : Z;
  p_read_id : string
}.

(** What the orchestrating code reads and writes: the module globals [fout]
    (unbound until assigned) and [done], the files written so far by path,
    and the two standard streams. *)
Record state : Type := mkState {
  fout : option file_object;
  done : Z;
  written : gmap string string;
  stderr : list progress;
  stdout : list string
}.

Definition initial : state := mkState None 0 ∅ [] [].

(** State-and-exception monad of the orchestrating code. *)
Definition M (A : Type) : Type := state -> result A * state.

Definition ret {A} (a : A) : M A := fun st => (Ok a, st).
Definition raise {A} (e : exn) : M A := fun st => (Raise e, st).
Definition bind {A B} (m : M A) (k : A -> M B) : M B :=
  fun st => match m st with
            | (Ok a, st') => k a st'
            | (Raise e, st') => (Raise e, st')
            end.
Definition lift {A} (r : result A) : M A := fun st => (r, st).

Notation "x <- m ;; k" := (bind m (fun x => k))
  (at level 100, m at next level, right associativity).
Notation "m ;; k" := (bind m (fun _ => k))
  (at level 100, right associativity).

Fixpoint for_each {A} (l : list A) (body : A -> M unit) : M unit :=
  match l with
  | [] => ret tt
  | x :: l' => body x ;; for_each l' body
  end.

(** Reading the global [fout]. *)
Definition get_fout : M file_object :=
  fun st => match fout st with
            | Some f => (Ok f, st)
            | None => (Raise NameError, st)
            end.

Definition set_fout (f : file_object) : M unit :=
  fun st => (Ok tt, mkState (Some f) (done st) (written st) (stderr st) (stdout st)).

Definition set_done (n : Z) : M unit :=
  fun st => (Ok tt, mkState (fout st) n (written st) (stderr st) (stdout st)).

Definition get_done : M Z := fun st => (Ok (done st), st).

(** [print(line, file=f)]: writing to a closed stream raises ValueError. *)
Definition print_file (line : string) (f : file_object) : M unit :=
  fun st =>
    if closed f then (Raise ValueError, st)
    else
      let old := default "" (written st !! name f) in
      (Ok tt, mkState (fout st) (done st)
                (<[name f := old +:+ line +:+ Str.newline]> (written st))
                (stderr st) (stdout st)).

Definition print_stderr (p : progress) : M unit :=
  fun st => (Ok tt, mkState (fout st) (done st) (written st) (stderr st ++ [p]) (stdout st)).

Definition print_stdout (line : string) : M unit :=
  fun st => (Ok tt, mkState (fout st) (done st) (written st) (stderr st) (stdout st ++ [line])).

(** ["%d" % v]: a float is truncated towards zero. *)
Definition format_d (v : attr) : result string :=
  match v with
  | AInt n => Ok (Str.of_Z n)
  | AFloat q => Ok (Str.of_Z (Z.quot (Qnum q) (Zpos (Qden q))))
  | ABytes _ => Raise TypeError
  end.

Section Script.

Context {F : Type} `{Float32 F}.

(** The decoder [caller.call_raw_signal], the input files, and the directories
    in which a file can be created. *)
Variable call_raw_signal : list F -> result (string * string).
Variable disk : gmap string (result file).
Variable dirs : gset string.

(** Lines 39-45: the metadata of one read. *)
Definition read_metadata (ftype : string) (read : read)
  : result (string * string * attr * attr * string * attr * string) :=
  let read_id := read_id read in
  run_id ← (b ← run_id read; Str.decode_utf8 b);
  read_number ←
    (if String.eqb ftype "multi-read"
     then (raw ← getitem (handle read) "Raw"; getitem raw "read_number")
     else (info ← first (status_read_info read); Ok (AInt (ri_read_number info))));
  start_time ←
    (if String.eqb ftype "multi-read"
     then (raw ← getitem (handle read) "Raw"; getitem raw "start_time")
     else (info ← first (status_read_info read); Ok (AInt (ri_start_time info))));
  channel_number ←
    (g ← getitem (handle read) (global_key read +:+ "channel_id");
     v ← getitem g "channel_number"; decode v);
  sampling_rate ←
    (g ← getitem (handle read) (global_key read +:+ "channel_id");
     getitem g "sampling_rate");
  exp_start_time ←
    (g ← getitem (handle read) (global_key read +:+ "tracking_id");
     v ← getitem g "exp_start_time"; decode v);
  Ok (read_id, run_id, read_number, start_time, channel_number, sampling_rate,
      exp_start_time).

(** Lines 39-53: the body of the loop over the reads of a file. *)
Definition call_read (ftype : string) (read : read) : result call_result :=
  '(read_id, run_id, read_number, start_time, channel_number, sampling_rate,
    exp_start_time) ← read_metadata ftype read;
  delta ← true_divide start_time sampling_rate;
  start_time ← add_time_seconds exp_start_time delta;
  signal ← raw_data read;
  let signal := rescale_signal signal in
  '(basecall, qual) ← call_raw_signal signal;
  Ok (mkCall read_id run_id read_number channel_number start_time basecall qual).

Fixpoint call_reads (ftype : string) (reads : list read) (out : list call_result)
  : result (list call_result) :=
  match reads with
  | [] => Ok out
  | read :: reads' =>
      r ← call_read ftype read;
      call_reads ftype reads' (out ++ [r])
  end.

(** The body of the [try] statement of [call_file]. *)
Definition call_file_body (filename : string) : result (list call_result) :=
  f5 ← get_fast5_file disk filename;
  ftype ← file_type f5;
  out ← call_reads ftype (reads f5) [];
  match reads_raise f5 with
  | Some e => Raise e
  | None => Ok out
  end.

(** [call_file(filename)]. *)
Definition call_file (filename : string) : result (list call_result) :=
  except_OSError (call_file_body filename) [].

(** [write_output(read_id, ..., quals, output_file, format)]: every [print]
    names the global [fout]; the parameter [output_file] is not used. *)
Definition write_output (r : call_result) (output_file : file_object) (format : string)
  : M unit :=
  if (String.length (cr_basecall r) =? 0)%nat then ret tt
  else if String.eqb format "fasta" then
    (f <- get_fout;; print_file (">" +:+ cr_read_id r) f);;
    (f <- get_fout;; print_file (cr_basecall r) f)
  else
    (read_num <- lift (format_d (cr_read_number r));;
     f <- get_fout;;
     print_file ("@" +:+ cr_read_id r +:+ " runid=" +:+ cr_run_id r +:+ " read="
                 +:+ read_num +:+ " ch=" +:+ cr_channel_number r
                 +:+ " start_time=" +:+ cr_start_time r) f);;
    (f <- get_fout;; print_file (cr_basecall r) f);;
    (f <- get_fout;; print_file "+" f);;
    (f <- get_fout;; print_file (cr_qual r) f).

(** The command line, as far as the script reads it after parsing. *)
Record arguments : Type := mkArgs {
  output : string;
  threads : Z;
  output_format : string;
  gzip_output : bool
}.

(** [open(path, "w")]: creates or truncates the file; fails when its directory
    does not exist. *)
Definition open_w (path : string) : M file_object :=
  fun st =>
    if decide (fst (PosixPath.split path) ∈ dirs)
    then (Ok (mkFileObject path false),
          mkState (fout st) (done st) (<[path := ""]> (written st))
                  (stderr st) (stdout st))
    else (Raise OSError, st).

(** [fout.close()]. *)
Definition close_fout : M unit :=
  f <- get_fout;; set_fout (mkFileObject (name f) true).

(** Lines 125-127 and 135-137: one result written and reported. *)
Definition write_and_report (args : arguments) (total : Z) (r : call_result) : M unit :=
  f <- get_fout;;
  write_output r f (output_format args);;
  n <- get_done;;
  set_done (n + 1);;
  n <- get_done;;
  print_stderr (mkProgress n total (cr_read_id r)).

(** Lines 120-128: the sequential branch's work on one input file. *)
Definition sequential_file (args : arguments) (total : Z) (fn : string) : M unit :=
  let '(head, tail) := PosixPath.split fn in
  let fname := Str.split_first "." tail in
  f <- open_w (PosixPath.join (output args) (fname +:+ "." +:+ output_format args));;
  set_fout f;;
  out <- lift (call_file fn);;
  for_each out (write_and_report args total);;
  close_fout.

(** Lines 133-137: the parallel branch's work on one delivered result list;
    an exception raised in the worker is raised again on delivery. *)
Definition parallel_file (args : arguments) (total : Z) (fn : string) : M unit :=
  out <- lift (call_file fn);;
  for_each out (write_and_report args total).

Definition main_sequential (args : arguments) (files : list string) : M unit :=
  set_done 0;;
  for_each files (sequential_file args (Z.of_nat (length files))).

(** [completion] is the order in which the pool delivers the files. *)
Definition main_parallel (args : arguments) (files completion : list string) : M unit :=
  set_done 0;;
  for_each completion (parallel_file args (Z.of_nat (length files))).

(** Lines 89-139, from the assertion on; [files] is the list built from the
    command line. *)
Definition main (args : arguments) (files completion : list string) : M unit :=
  if threads args <? 1 then raise AssertionError
  else if (length files =? 0)%nat then print_stdout "Zero input reads, nothing to do."
  else
    (if threads args <=? 1 then main_sequential args files
     else main_parallel args files completion);;
    close_fout.

End Script.

(** ** Vocabulary of the statements *)

(** The text that printing [lines] one by one appends to a stream. *)
Fixpoint unlines (lines : list string) : string :=
  match lines with
  | [] => ""
  | l :: lines' => l +:+ Str.newline +:+ unlines lines'
  end.

(** The state after [lines] have been printed to the stream [f]. *)
Definition emit (f : file_object) (lines : list string) (st : state) : state :=
  mkState (fout st) (done st)
    (<[name f := default "" (written st !! name f) +:+ unlines lines]> (written st))
    (stderr st) (stdout st).

(** The header line of a FASTQ record, [read_num] being the read number as
    ["%d"] prints it. *)
Definition fastq_header (r : call_result) (read_num : string) : string :=
  "@" +:+ cr_read_id r +:+ " runid=" +:+ cr_run_id r +:+ " read=" +:+ read_num
  +:+ " ch=" +:+ cr_channel_number r +:+ " start_time=" +:+ cr_start_time r.

(** The progress lines of the results [out] when [n] results were reported
    before them. *)
Fixpoint reports (n total : Z) (out : list call_result) : list progress :=
  match out with
  | [] => []
  | r :: out' => mkProgress (n + 1) total (cr_read_id r) :: reports (n + 1) total out'
  end.

(** The read [r] with the attribute [key] of the group [group] removed. *)
Definition without_attr (group key : string) (r : read) : read :=
  mkRead (read_id r) (run_id r) (global_key r)
         (alter (delete key) group (handle r))
         (status_read_info r) (raw_data r).

(** The attributes [call_file] looks up on a read, by group and key. *)
Definition required_attrs (ftype : string) (r : read) : list (string * string) :=
  (if String.eqb ftype "multi-read"
   then [("Raw", "read_number"); ("Raw", "start_time")] else [])
  ++ [(global_key r +:+ "channel_id", "channel_number");
      (global_key r +:+ "channel_id", "sampling_rate");
      (global_key r +:+ "tracking_id", "exp_start_time")].

(** The start time in the words of the specification: the experiment start
    plus [start_offset / sampling_rate] seconds, at second resolution, the
    fraction of a second cut off. *)
Definition start_time_as_specified
    (exp_start_time : string) (start_offset : Z) (sampling_rate : Q) : result string :=
  base ← Datetime.strptime exp_start_time;
  let t := Qfloor (inject_Z (Datetime.to_seconds base)
                   + inject_Z start_offset / sampling_rate) in
  let '(y, m, d) := Datetime._ord2ymd (t / 86400) in
  let s := t mod 86400 in
  Ok (Datetime.strftime
        (Datetime.mkDatetime y m d (s / 3600) (s mod 3600 / 60) (s mod 60) 0)).

(** The start time of a read as [call_file] computes it (lines 42-47). *)
Definition start_time_of
    (exp_start_time : string) (start_offset : Z) (sampling_rate : Q) : result string :=
  delta ← true_divide (AInt start_offset) (AFloat sampling_rate);
  add_time_seconds exp_start_time delta.

(** The output file the sequential branch opens for the input file [fn]. *)
Definition output_path (out_dir format fn : string) : string :=
  PosixPath.join out_dir
    (Str.split_first "." (snd (PosixPath.split fn)) +:+ "." +:+ format).

Section Vocabulary.

Context {F : Type} `{Float32 F}.
Variable call_raw_signal : list F -> result (string * string).
Variable disk : gmap string (result file).

(** A container file that fails with an I/O error as a whole: it cannot be
    opened, its layout cannot be read, a read in it cannot be read, or the
    iteration over its reads breaks off. *)
Inductive unreadable (filename : string) : Prop :=
  | cannot_open :
      get_fast5_file disk filename = Raise OSError -> unreadable filename
  | cannot_type f5 :
      get_fast5_file disk filename = Ok f5 ->
      file_type f5 = Raise OSError -> unreadable filename
  | cannot_read f5 ftype before r after :
      get_fast5_file disk filename = Ok f5 ->
      file_type f5 = Ok ftype ->
      reads f5 = before ++ r :: after ->
      Forall (fun x => is_Ok (call_read call_raw_signal ftype x) = true) before ->
      call_read call_raw_signal ftype r = Raise OSError -> unreadable filename
  | cannot_iterate f5 ftype :
      get_fast5_file disk filename = Ok f5 ->
      file_type f5 = Ok ftype ->
      Forall (fun x => is_Ok (call_read call_raw_signal ftype x) = true) (reads f5) ->
      reads_raise f5 = Some OSError -> unreadable filename.

End Vocabulary.

(** ** Sample data *)

Module Sample.

(** A stand-in decoder: no call for an empty signal, a fixed one otherwise. *)
Definition decoder (signal : list B32.t) : result (string * string) :=
  if (length signal =? 0)%nat then Ok ("", "") else Ok ("ACGT", "!!!!").

Definition channel_id : gmap string attr :=
  {[ "channel_number" := ABytes "12"; "sampling_rate" := AFloat (4000 # 1) ]}.

Definition tracking_id : gmap string attr :=
  {[ "exp_start_time" := ABytes "2021-01-01T00:00:00Z" ]}.

Definition raw (read_number : Z) : gmap string attr :=
  {[ "read_number" := AInt read_number; "start_time" := AInt 4000 ]}.

Definition a_read (id : string) (read_number : Z) (signal : list Z) : read :=
  mkRead id (Ok "run1") "read_x/"
         {[ "Raw" := raw read_number;
            "read_x/channel_id" := channel_id;
            "read_x/tracking_id" := tracking_id ]}
         [] (Ok signal).

Definition r1 : read := a_read "r1" 7 [1; 2; 3; 4; 100].
Definition r2 : read := a_read "r2" 8 [5; 5; 9; 1].
Definition silent : read := a_read "r0" 9 [].

Definition multi (l : list read) : result file := Ok (mkFile (Ok "multi-read") l None).

(** [a.fast5] holds two reads; [b.fast5] one read that decodes to nothing;
    [c.fast5] a read without its read number before a good one;
    [d.fast5] is not a container file. *)
Definition disk : gmap string (result file) :=
  {[ "in/a.fast5" := multi [r1; r2];
     "in/b.fast5" := multi [silent];
     "in/c.fast5" := multi [without_attr "Raw" "read_number" r1; r2];
     "in/d.fast5" := Raise OSError ]}.

Definition dirs : gset string := {[ "out" ]}.

Definition args (threads : Z) (format : string) (gzip : bool) : arguments :=
  mkArgs "out" threads format gzip.

Definition c1 : call_result :=
  mkCall "r1" "run1" (AInt 7) "12" "2021-01-01T00:00:01Z" "ACGT" "!!!!".

Definition opened (path : string) : state :=
  mkState (Some (mkFileObject path false)) 0 {[ path := "" ]} [] [].

End Sample.

(** ** Further vocabulary *)

(** The lines [write_output] prints for a result, or the exception that the
    formatting of the read number raises. *)
Definition record_lines (format : string) (r : call_result) : result (list string) :=
  if (String.length (cr_basecall r) =? 0)%nat then Ok []
  else if String.eqb format "fasta" then Ok [">" +:+ cr_read_id r; cr_basecall r]
  else read_num ← format_d (cr_read_number r);
       Ok [fastq_header r read_num; cr_basecall r; "+"; cr_qual r].

(** Lines 91-94: the input files, from the [--reads] and [--directory]
    options as argparse leaves them ([None] for an option that is not given)
    and the directory listings of the file system. *)
Fixpoint list_directories (listdir : string -> result (list string))
    (directory : list string) (files : list string) : result (list string) :=
  match directory with
  | [] => Ok files
  | directory_name :: directory' =>
      names ← listdir directory_name;
      list_directories listdir directory'
        (files ++ map (PosixPath.join directory_name) names)
  end.

Definition input_files (listdir : string -> result (list string))
    (reads directory : option (list string)) : result (list string) :=
  let files := match reads with Some ((_ :: _) as l) => l | _ => [] end in
  match directory with
  | Some ((_ :: _) as l) => list_directories listdir l files
  | _ => Ok files
  end.

(** Whether the character occurs in the string. *)
Definition occurs (c : ascii) (s : string) : bool :=
  existsb (Ascii.eqb c) (list_ascii_of_string s).

(** A datetime as a count of microseconds since the start of day 0 of the
    proleptic calendar, and back. *)
Definition to_microseconds (d : Datetime.datetime) : Z :=
  Datetime.to_seconds d * 1000000 + Datetime.microsecond d.

Definition of_microseconds (t : Z) : Datetime.datetime :=
  let s := t / 1000000 in
  let '(y, m, d) := Datetime._ord2ymd (s / 86400) in
  let r := s mod 86400 in
  Datetime.mkDatetime y m d (r / 3600) (r mod 3600 / 60) (r mod 3600 mod 60)
                      (t mod 1000000).

(** Whether a count of microseconds falls within the years 1 to 9999. *)
Definition in_calendar (t : Z) : bool :=
  (86400 <=? t / 1000000) && (t / 1000000 <? (Datetime._MAXORDINAL + 1) * 86400).

(** What [strftime] prints for a field is ASCII and is what [strptime] reads
    as the field. *)
Definition reads_back (f : list Z -> option Z) (pr : Z -> string) (n : Z) : bool :=
  let l := list_ascii_of_string (pr n) in
  forallb (Str.byte_in 0 127) l
  && forallb Datetime.in_field (map Str.code l)
  && match f (map Str.code l) with
     | Some v => v =? n
     | None => false
     end.

(** Equality of binary32 values, and what makes a sample [c] behave in a
    constant signal: its float is a number, is its own mean, and differs
    from itself by zero. *)
Definition same_float (x y : B32.t) : bool :=
  match x, y with
  | S754_zero a, S754_zero b => Bool.eqb a b
  | S754_infinity a, S754_infinity b => Bool.eqb a b
  | S754_nan, S754_nan => true
  | S754_finite a m e, S754_finite b n f => Bool.eqb a b && Pos.eqb m n && Z.eqb e f
  | _, _ => false
  end.

Definition is_its_own_median (x : B32.t) : bool :=
  negb (B32.is_nan x) && SFleb x x
  && same_float (B32.div x (B32.of_Z 1)) x
  && same_float (B32.div (B32.add x x) (B32.of_Z 2)) x.

Definition constant_sample (c : Z) : bool :=
  is_its_own_median (B32.of_Z c)
  && same_float (B32.abs (B32.sub (B32.of_Z c) (B32.of_Z c))) (S754_zero false).

(** Whether [p] holds of the [n] integers from [lo] on. *)
Fixpoint all_from (n : nat) (lo : Z) (p : Z -> bool) : bool :=
  match n with
  | O => true
  | S n' => p lo && all_from n' (lo + 1) p
  end.

(** ** Further sample data *)

Module MoreSample.

(** A read as [Sample.r1], recorded at a sampling rate of zero. *)
Definition stalled : read :=
  mkRead "r9" (Ok "run1") "read_x/"
         {[ "Raw" := Sample.raw 3;
            "read_x/channel_id" :=
              {[ "channel_number" := ABytes "12"; "sampling_rate" := AFloat 0 ]};
            "read_x/tracking_id" := Sample.tracking_id ]}
         [] (Ok [1; 2; 3]).

(** [z.fast5] holds the stalled read between two good ones; two files named
    [a.fast5] lie in two directories. *)
Definition disk : gmap string (result file) :=
  {[ "in/z.fast5" := Sample.multi [Sample.r1; stalled; Sample.r2];
     "in/a.fast5" := Sample.multi [Sample.r1];
     "more/a.fast5" := Sample.multi [Sample.r2] ]}.

(** The directory listings of a small file system. *)
Definition listdir (d : string) : result (list string) :=
  if String.eqb d "in" then Ok ["a.fast5"; "b.fast5"]
  else if String.eqb d "more/" then Ok ["a.fast5"]
  else Raise OSError.

End MoreSample.

Module MoreCalls.

Definition c2 : call_result :=
  mkCall "r2" "run1" (AInt 8) "12" "2021-01-01T00:00:01Z" "ACGT" "!!!!".

Definition c0 : call_result :=
  mkCall "r0" "run1" (AInt 9) "12" "2021-01-01T00:00:01Z" "" "".

End MoreCalls.

(** ** Theorems *)

(** *** Strings *)

Lemma string_length_pos (s : string) : s <> "" -> (String.length s =? 0)%nat = false.
Proof. destruct s; cbn; congruence. Qed.

Lemma string_app_cons (x : ascii) (a b : string) :
  String x a +:+ b = String x (a +:+ b).
Proof. reflexivity. Qed.

Lemma string_app_assoc (a b c : string) : (a +:+ b) +:+ c = a +:+ b +:+ c.
Proof.
  induction a as [|x a IH]; [done|]. rewrite !string_app_cons. by f_equal.
Qed.

Lemma string_app_nil_r (a : string) : a +:+ "" = a.
Proof.
  induction a as [|x a IH]; [done|]. rewrite string_app_cons. by f_equal.
Qed.

Lemma string_length_app (a b : string) :
  String.length (a +:+ b) = (String.length a + String.length b)%nat.
Proof.
  induction a as [|x a IH]; [done|]. rewrite string_app_cons. cbn. by rewrite IH.
Qed.

Lemma string_app_inj (a b c : string) : a +:+ b = a +:+ c -> b = c.
Proof.
  induction a as [|x a IH]; [done|]. rewrite !string_app_cons. intros E.
  apply IH. by inversion E.
Qed.

Lemma Raw_ne_global (gk s : string) :
  (3 < String.length s)%nat -> "Raw" <> gk +:+ s.
Proof.
  intros Hl E. apply (f_equal String.length) in E.
  rewrite string_length_app in E. cbn in E. lia.
Qed.


(** *** The calendar *)

Module DatetimeFacts.
Import Datetime.

Lemma days_before_year_decomposed (n400 n100 n4 n1 : Z) :
  0 <= n400 -> 0 <= n100 <= 3 -> 0 <= n4 <= 24 -> 0 <= n1 <= 3 ->
  _days_before_year (n400 * 400 + 1 + n100 * 100 + n4 * 4 + n1)
  = n400 * _DI400Y + n100 * _DI100Y + n4 * _DI4Y + n1 * 365.
Proof.
  intros H400 H100 H4 H1. unfold _days_before_year, _DI400Y, _DI100Y, _DI4Y.
  Z.div_mod_to_equations; lia.
Qed.

Ltac split_eqb :=
  repeat match goal with
         | |- context [?a =? ?b] => destruct (Z.eqb_spec a b)
         | |- context [?a <? ?b] => destruct (Z.ltb_spec a b)
         end.

Lemma is_leap_decomposed (n400 n100 n4 n1 : Z) :
  0 <= n400 -> 0 <= n100 <= 3 -> 0 <= n4 <= 24 -> 0 <= n1 <= 3 ->
  _is_leap (n400 * 400 + 1 + n100 * 100 + n4 * 4 + n1)
  = (n1 =? 3) && (negb (n4 =? 24) || (n100 =? 3)).
Proof.
  intros H400 H100 H4 H1. unfold _is_leap.
  split_eqb; cbn; try reflexivity; exfalso; Z.div_mod_to_equations; lia.
Qed.

(** The last day of a leap year, which [_ord2ymd] treats apart. *)
Lemma last_day_of_leap_year (y : Z) :
  _is_leap y = true ->
  _ymd2ord y 12 31 = _days_before_year y + 366 /\ _days_in_month y 12 = 31.
Proof.
  intros E. unfold _ymd2ord, _days_before_month, _days_in_month. rewrite E. cbn. lia.
Qed.

(** The month and the days before it, found from the day of the year. *)
Lemma month_of_day (leap : bool) (n month preceding : Z) :
  0 <= n < 365 ->
  (if n <? _DAYS_BEFORE_MONTH (Z.shiftr (n + 50) 5)
          + (if (2 <? Z.shiftr (n + 50) 5) && leap then 1 else 0)
   then (Z.shiftr (n + 50) 5 - 1,
         _DAYS_BEFORE_MONTH (Z.shiftr (n + 50) 5)
         + (if (2 <? Z.shiftr (n + 50) 5) && leap then 1 else 0)
         - (_DAYS_IN_MONTH (Z.shiftr (n + 50) 5 - 1)
            + (if (Z.shiftr (n + 50) 5 - 1 =? 2) && leap then 1 else 0)))
   else (Z.shiftr (n + 50) 5,
         _DAYS_BEFORE_MONTH (Z.shiftr (n + 50) 5)
         + (if (2 <? Z.shiftr (n + 50) 5) && leap then 1 else 0)))
  = (month, preceding) ->
  1 <= month <= 12
  /\ preceding = _DAYS_BEFORE_MONTH month + (if (2 <? month) && leap then 1 else 0)
  /\ 0 <= n - preceding
       < _DAYS_IN_MONTH month + (if (month =? 2) && leap then 1 else 0).
Proof.
  intros Hn. rewrite Z.shiftr_div_pow2 by lia. change (2 ^ 5) with 32.
  remember ((n + 50) / 32) as m0 eqn:Em0.
  assert (Hm : 32 * m0 <= n + 50 < 32 * m0 + 32)
    by (subst m0; Z.div_mod_to_equations; lia).
  clear Em0.
  assert (Hcases : m0 = 1 \/ m0 = 2 \/ m0 = 3 \/ m0 = 4 \/ m0 = 5 \/ m0 = 6 \/ m0 = 7
                   \/ m0 = 8 \/ m0 = 9 \/ m0 = 10 \/ m0 = 11 \/ m0 = 12) by lia.
  destruct_or!; subst m0; destruct leap; cbn;
    match goal with |- context [n <? ?k] => destruct (Z.ltb_spec n k) end;
    intros [= <- <-];
    repeat match goal with
           | |- context [Z.pos ?p - 1] =>
               let v := eval vm_compute in (Z.pos p - 1) in
               change (Z.pos p - 1) with v
           end;
    cbn; lia.
Qed.

(** [_ord2ymd] inverts [_ymd2ord] and yields a date of the calendar. *)
Lemma ord2ymd_ymd2ord (n y m d : Z) :
  1 <= n <= _MAXORDINAL ->
  _ord2ymd n = (y, m, d) ->
  _ymd2ord y m d = n
  /\ 1 <= y <= 9999 /\ 1 <= m <= 12 /\ 1 <= d <= _days_in_month y m.
Proof.
  intros Hn. unfold _ord2ymd, _MAXORDINAL in *.
  remember ((n - 1) / _DI400Y) as n400 eqn:E400.
  remember ((n - 1) mod _DI400Y) as r1 eqn:Er1.
  remember (r1 / _DI100Y) as n100 eqn:E100.
  remember (r1 mod _DI100Y) as r2 eqn:Er2.
  remember (r2 / _DI4Y) as n4 eqn:E4.
  remember (r2 mod _DI4Y) as r3 eqn:Er3.
  remember (r3 / 365) as n1 eqn:E1.
  remember (r3 mod 365) as r4 eqn:Er4.
  assert (Hdec : n - 1 = n400 * _DI400Y + n100 * _DI100Y + n4 * _DI4Y + n1 * 365 + r4
                 /\ 0 <= n400 <= 24 /\ 0 <= n100 <= 4 /\ 0 <= n4 <= 24
                 /\ 0 <= n1 <= 4 /\ 0 <= r4 < 365
                 /\ (n100 = 4 -> n4 = 0 /\ n1 = 0 /\ r4 = 0)
                 /\ (n1 = 4 -> r4 = 0 /\ n4 <= 23)).
  { subst. unfold _DI400Y, _DI100Y, _DI4Y. Z.div_mod_to_equations. lia. }
  clear E400 Er1 E100 Er2 E4 Er3 E1 Er4.
  destruct Hdec as (Hsum & H400 & H100 & H4 & H1 & Hr4 & Hc & Hy).
  destruct ((n1 =? 4) || (n100 =? 4)) eqn:Elast.
  - intros [= <- <- <-].
    assert (Hr : r4 = 0) by (apply orb_true_iff in Elast; lia).
    assert (Hleap : _is_leap (n400 * 400 + 1 + n100 * 100 + n4 * 4 + n1 - 1) = true).
    { unfold _is_leap. apply orb_true_iff in Elast. rewrite !Z.eqb_eq in Elast.
      split_eqb; cbn; try reflexivity; exfalso; Z.div_mod_to_equations; lia. }
    destruct (last_day_of_leap_year _ Hleap) as [-> ->].
    unfold _days_before_year, _DI400Y, _DI100Y, _DI4Y in *.
    apply orb_true_iff in Elast. rewrite !Z.eqb_eq in Elast.
    repeat split; try lia; Z.div_mod_to_equations; lia.
  - apply orb_false_iff in Elast. rewrite !Z.eqb_neq in Elast.
    assert (H100' : 0 <= n100 <= 3) by lia. assert (H1' : 0 <= n1 <= 3) by lia.
    pose proof (is_leap_decomposed n400 n100 n4 n1 ltac:(lia) H100' H4 H1') as Hleap.
    pose proof (days_before_year_decomposed n400 n100 n4 n1 ltac:(lia) H100' H4 H1') as Hdby.
    remember ((n1 =? 3) && (negb (n4 =? 24) || (n100 =? 3))) as leap eqn:El.
    match goal with
    | |- (let '(a, b) := ?p in _) = _ -> _ => destruct p as [month preceding] eqn:Em
    end.
    apply month_of_day in Em; [|lia]. destruct Em as (Hm & Hp & Hd).
    intros [= <- <- <-].
    unfold _ymd2ord, _days_before_month, _days_in_month.
    rewrite Hleap, Hdby, <- Hp. unfold _DI400Y, _DI100Y, _DI4Y in *.
    repeat split; try lia.
    destruct ((month =? 2) && leap) eqn:E2.
    + apply andb_true_iff in E2. rewrite Z.eqb_eq in E2. destruct E2 as [-> _].
      cbn in Hd. lia.
    + lia.
Qed.

(** A date the constructor accepts falls on a day of the calendar. *)
Lemma check_fields_bounds (d : datetime) :
  check_fields d = true ->
  1 <= year d <= 9999 /\ 1 <= month d <= 12
  /\ 1 <= day d <= _days_in_month (year d) (month d)
  /\ 0 <= hour d <= 23 /\ 0 <= minute d <= 59 /\ 0 <= second d <= 59
  /\ 0 <= microsecond d <= 999999.
Proof. unfold check_fields. rewrite !andb_true_iff, !Z.leb_le. tauto. Qed.

Lemma to_seconds_bounds (d : datetime) :
  check_fields d = true -> 0 <= to_seconds d <= 1000000000000.
Proof.
  intros Hc. apply check_fields_bounds in Hc.
  destruct Hc as (Hy & Hm & Hd & Hh & Hmi & Hs & _).
  unfold to_seconds, toordinal, _ymd2ord, _days_before_year, _days_before_month.
  assert (Hdim : _days_in_month (year d) (month d) <= 31).
  { unfold _days_in_month. destruct (_ && _); [lia|].
    assert (Hcases : month d = 1 \/ month d = 2 \/ month d = 3 \/ month d = 4
                     \/ month d = 5 \/ month d = 6 \/ month d = 7 \/ month d = 8
                     \/ month d = 9 \/ month d = 10 \/ month d = 11 \/ month d = 12) by lia.
    destruct_or!; rewrite Hcases; cbn; lia. }
  assert (Hdbm : 0 <= _DAYS_BEFORE_MONTH (month d) <= 334).
  { assert (Hcases : month d = 1 \/ month d = 2 \/ month d = 3 \/ month d = 4
                     \/ month d = 5 \/ month d = 6 \/ month d = 7 \/ month d = 8
                     \/ month d = 9 \/ month d = 10 \/ month d = 11 \/ month d = 12) by lia.
    destruct_or!; rewrite Hcases; cbn; lia. }
  destruct (_ && _); Z.div_mod_to_equations; lia.
Qed.

Lemma total_microseconds_normalised (us : Z) :
  total_microseconds (timedelta_of_microseconds us) = us.
Proof.
  unfold total_microseconds, timedelta_of_microseconds. cbn.
  Z.div_mod_to_equations; lia.
Qed.

Lemma strptime_Ok (s : string) (d : datetime) :
  strptime s = Ok d -> check_fields d = true /\ microsecond d = 0.
Proof.
  unfold strptime. destruct (match_format _) as [d'|] eqn:E; [|done].
  destruct (check_fields d') eqn:Ec; [|done]. intros [= <-]. split; [done|].
  unfold match_format in E. simplify_option_eq.
  repeat (case_match; simplify_option_eq); done.
Qed.

(** [datetime + timedelta], on the scale of seconds. *)
Lemma add_seconds (b : datetime) (us : Z) :
  check_fields b = true -> microsecond b = 0 ->
  86400 <= to_seconds b + us / 1000000 < (_MAXORDINAL + 1) * 86400 ->
  exists d,
    add b (timedelta_of_microseconds us) = Ok d
    /\ check_fields d = true
    /\ to_seconds d = to_seconds b + us / 1000000.
Proof.
  intros Hc Hus Ht. unfold add. cbv zeta.
  rewrite total_microseconds_normalised.
  assert (Etot : total_microseconds
                   (mkTimedelta (toordinal b)
                      (hour b * 3600 + minute b * 60 + second b) (microsecond b))
                 = to_seconds b * 1000000).
  { unfold total_microseconds, to_seconds. cbn. lia. }
  rewrite Etot. clear Etot.
  remember (to_seconds b) as S eqn:ES. clear ES.
  unfold timedelta_of_microseconds. cbn [days seconds microseconds].
  replace ((S * 1000000 + us) / 1000000) with (S + us / 1000000)
    by (Z.div_mod_to_equations; lia).
  remember (S + us / 1000000) as t eqn:Et. unfold _MAXORDINAL in *.
  assert (Hdays : 1 <= t / 86400 <= 3652059) by (Z.div_mod_to_equations; lia).
  destruct ((0 <? t / 86400) && (t / 86400 <=? 3652059)) eqn:Er; [|lia].
  destruct (_ord2ymd (t / 86400)) as [[y m] dd] eqn:Eo.
  apply ord2ymd_ymd2ord in Eo; [|done]. destruct Eo as (Ho & Hy & Hm & Hd).
  eexists. split; [reflexivity|]. split.
  - unfold check_fields. cbn. rewrite !andb_true_iff, !Z.leb_le.
    repeat split; try lia; Z.div_mod_to_equations; lia.
  - unfold to_seconds, toordinal. cbn. rewrite Ho. Z.div_mod_to_equations; lia.
Qed.

Lemma forallb_seqZ (p : Z -> bool) (lo len z : Z) :
  forallb p (seqZ lo len) = true -> lo <= z < lo + len -> p z = true.
Proof.
  intros Hall Hz. rewrite forallb_forall in Hall. apply Hall.
  apply list_elem_of_In, elem_of_seqZ. lia.
Qed.

Lemma pad2_length (n : Z) : 0 <= n <= 99 -> String.length (Str.pad2 n) = 2%nat.
Proof.
  intros Hn.
  apply Nat.eqb_eq, (forallb_seqZ (fun n => String.length (Str.pad2 n) =? 2)%nat 0 100);
    [by vm_compute|lia].
Qed.

Lemma year_length (y : Z) : 1000 <= y <= 9999 -> String.length (Str.of_Z y) = 4%nat.
Proof.
  intros Hy.
  apply Nat.eqb_eq, (forallb_seqZ (fun n => String.length (Str.of_Z n) =? 4)%nat 1000 9000);
    [by vm_compute|lia].
Qed.

Lemma strftime_length (d : datetime) :
  check_fields d = true -> 1000 <= year d ->
  String.length (strftime d) = 20%nat.
Proof.
  intros Hc Hy. apply check_fields_bounds in Hc.
  destruct Hc as (Hy' & Hm & Hd & Hh & Hmi & Hs & _).
  assert (Hdim : _days_in_month (year d) (month d) <= 31).
  { unfold _days_in_month. destruct (_ && _); [lia|].
    assert (Hcases : month d = 1 \/ month d = 2 \/ month d = 3 \/ month d = 4
                     \/ month d = 5 \/ month d = 6 \/ month d = 7 \/ month d = 8
                     \/ month d = 9 \/ month d = 10 \/ month d = 11 \/ month d = 12) by lia.
    destruct_or!; rewrite Hcases; cbn; lia. }
  unfold strftime. rewrite !string_length_app, year_length, !pad2_length by lia.
  reflexivity.
Qed.

End DatetimeFacts.

(** *** Signal normalisation *)

Section NormaliseFacts.

Context {F : Type} `{Float32 F}.




End NormaliseFacts.

(** In binary32: the median of [1; 2; 3; 4; 100] is 3 and the scaled median
    deviation 1.4826, so that the samples become -1.349, -0.674, 0, 0.674 and
    65.43; a constant signal has a zero deviation and becomes NaN throughout. *)
Example rescale_signal_binary32 :
  rescale_signal [1; 2; 3; 4; 100]
  = [S754_finite true 11316077 (-23); S754_finite true 11316077 (-24);
     S754_zero false; S754_finite false 11316077 (-24);
     S754_finite false 8575465 (-17)]
  /\ rescale_signal [7; 7; 7] = [S754_nan; S754_nan; S754_nan].
Proof. by vm_compute. Qed.

(** *** The monad of the orchestrating code *)

Lemma bind_Ok {A B} (m : M A) (k : A -> M B) st a st' :
  m st = (Ok a, st') -> bind m k st = k a st'.
Proof. intros E. unfold bind. by rewrite E. Qed.

Lemma bind_Raise {A B} (m : M A) (k : A -> M B) st e st' :
  m st = (Raise e, st') -> bind m k st = (Raise e, st').
Proof. intros E. unfold bind. by rewrite E. Qed.

Lemma for_each_Raise {A} (x : A) (l : list A) (body : A -> M unit) st e st' :
  body x st = (Raise e, st') -> for_each (x :: l) body st = (Raise e, st').
Proof. intros E. cbn. by apply bind_Raise. Qed.

Lemma emit_emit f l1 l2 st : emit f l2 (emit f l1 st) = emit f (l1 ++ l2) st.
Proof.
  unfold emit. cbn. rewrite lookup_insert_eq, insert_insert_eq. cbn.
  do 2 f_equal. rewrite string_app_assoc. f_equal.
  induction l1 as [|x l1 IH]; simpl; [done|]. by rewrite !string_app_assoc, IH.
Qed.

Lemma print_fout line st f :
  fout st = Some f -> closed f = false ->
  (f <- get_fout;; print_file line f) st = (Ok tt, emit f [line] st).
Proof.
  intros Ef Ec. unfold bind, get_fout, print_file. rewrite Ef, Ec.
  unfold emit. cbn. by rewrite string_app_nil_r.
Qed.

Section ScriptFacts.

Context {F : Type} `{Float32 F}.
Variable call_raw_signal : list F -> result (string * string).
Variable disk : gmap string (result file).
Variable dirs : gset string.

#[local] Abbreviation call_read := (call_read call_raw_signal).
#[local] Abbreviation call_reads := (call_reads call_raw_signal).
#[local] Abbreviation call_file := (call_file call_raw_signal disk).
#[local] Abbreviation sequential_file := (sequential_file call_raw_signal disk dirs).
#[local] Abbreviation parallel_file := (parallel_file call_raw_signal disk).
#[local] Abbreviation main_parallel := (main_parallel call_raw_signal disk).
#[local] Abbreviation main_sequential := (main_sequential call_raw_signal disk dirs).

(** *** [call_file] *)

Lemma call_reads_Ok ftype rs out :
  Forall (fun x => is_Ok (call_read ftype x) = true) rs ->
  exists res,
    call_reads ftype rs out = Ok (out ++ res)
    /\ Forall2 (fun r c => call_read ftype r = Ok c) rs res.
Proof.
  intros Hall. revert out. induction Hall as [|r rs Hr _ IH]; intros out.
  - exists []. cbn. by rewrite app_nil_r.
  - destruct (call_read ftype r) as [c|] eqn:E; [|done].
    destruct (IH (out ++ [c])) as (res & E1 & E2).
    exists (c :: res). cbn. rewrite E. cbn. rewrite E1, <- app_assoc. cbn.
    split; [done|]. by constructor.
Qed.

Lemma call_reads_Raise ftype before r after out e :
  Forall (fun x => is_Ok (call_read ftype x) = true) before ->
  call_read ftype r = Raise e ->
  call_reads ftype (before ++ r :: after) out = Raise e.
Proof.
  intros Hall Er. revert out. induction Hall as [|x xs Hx _ IH]; intros out; cbn.
  - by rewrite Er.
  - destruct (call_read ftype x) as [c|]; [|done]. cbn. apply IH.
Qed.

Lemma call_file_body_unreadable filename :
  unreadable call_raw_signal disk filename ->
  call_file_body call_raw_signal disk filename = Raise OSError.
Proof.
  unfold call_file_body.
  intros [E | f5 E Et | f5 ftype before r after E Et Er Hb Hr | f5 ftype E Et Hall Ee];
    rewrite E; cbn; [done | by rewrite Et | |].
  - rewrite Et. cbn. rewrite Er, (call_reads_Raise _ _ _ _ _ OSError); done.
  - rewrite Et. cbn. destruct (call_reads_Ok ftype (reads f5) [] Hall) as (res & -> & _).
    cbn. by rewrite Ee.
Qed.

(** *** [write_output] *)

Lemma write_output_empty r o format st :
  cr_basecall r = "" -> write_output r o format st = (Ok tt, st).
Proof. intros E. unfold write_output. by rewrite E. Qed.

Lemma write_output_fasta r o st f :
  cr_basecall r <> "" -> fout st = Some f -> closed f = false ->
  write_output r o "fasta" st
  = (Ok tt, emit f [">" +:+ cr_read_id r; cr_basecall r] st).
Proof.
  intros Hb Ef Ec. unfold write_output. rewrite string_length_pos by done. cbn.
  erewrite bind_Ok by (by apply (print_fout _ _ f)).
  rewrite (print_fout _ _ f) by done. by rewrite emit_emit.
Qed.

Lemma write_output_fastq r o format st f read_num :
  cr_basecall r <> "" -> format <> "fasta" ->
  format_d (cr_read_number r) = Ok read_num ->
  fout st = Some f -> closed f = false ->
  write_output r o format st
  = (Ok tt, emit f [fastq_header r read_num; cr_basecall r; "+"; cr_qual r] st).
Proof.
  intros Hb Hf En Ef Ec. unfold write_output. rewrite string_length_pos by done.
  apply String.eqb_neq in Hf. rewrite Hf, En.
  erewrite bind_Ok; cycle 1.
  { unfold bind at 1, lift. cbn. by apply (print_fout _ _ f). }
  erewrite bind_Ok by (by apply (print_fout _ _ f)).
  erewrite bind_Ok by (by apply (print_fout _ _ f)).
  rewrite (print_fout _ _ f) by done. by rewrite !emit_emit.
Qed.


Lemma write_output_Ok r o format st f :
  fout st = Some f -> closed f = false ->
  is_Ok (format_d (cr_read_number r)) = true ->
  exists st',
    write_output r o format st = (Ok tt, st')
    /\ fout st' = fout st /\ done st' = done st /\ stderr st' = stderr st.
Proof.
  intros Ef Ec Hn.
  destruct (decide (cr_basecall r = "")) as [Eb|Eb].
  { exists st. by rewrite write_output_empty. }
  destruct (decide (format = "fasta")) as [->|Hf].
  { eexists. by rewrite (write_output_fasta _ _ _ f). }
  destruct (format_d (cr_read_number r)) as [num|] eqn:En; [|done].
  eexists. by rewrite (write_output_fastq _ _ _ _ f num).
Qed.

Lemma write_and_report_Ok args total r st f :
  fout st = Some f -> closed f = false ->
  is_Ok (format_d (cr_read_number r)) = true ->
  exists st',
    write_and_report args total r st = (Ok tt, st')
    /\ fout st' = fout st /\ done st' = done st + 1
    /\ stderr st' = stderr st ++ [mkProgress (done st + 1) total (cr_read_id r)].
Proof.
  intros Ef Ec Hn. unfold write_and_report.
  destruct (write_output_Ok r f (output_format args) st f Ef Ec Hn)
    as (st1 & E1 & Hf & Hd & He).
  unfold bind at 1. unfold get_fout at 1. rewrite Ef.
  erewrite bind_Ok by exact E1.
  eexists. split; [reflexivity|]. cbn. by rewrite Hf, Hd, He.
Qed.

Lemma write_and_report_unbound args total r st :
  fout st = None -> write_and_report args total r st = (Raise NameError, st).
Proof. intros Ef. unfold write_and_report, bind, get_fout. by rewrite Ef. Qed.

Lemma sequential_file_opened args total fn st out :
  let path := output_path (output args) (output_format args) fn in
  fst (PosixPath.split path) ∈ dirs ->
  call_file fn = Ok out ->
  sequential_file args total fn st
  = (for_each out (write_and_report args total);; close_fout)
      (mkState (Some (mkFileObject path false)) (done st)
               (<[path := ""]> (written st)) (stderr st) (stdout st)).
Proof.
  intros path Hd Ec. unfold sequential_file. subst path. unfold output_path in *.
  destruct (PosixPath.split fn) as [head tail]. cbn [snd] in *.
  unfold bind at 1, open_w. rewrite decide_True by done.
  unfold bind at 1, set_fout. cbn. unfold bind at 1, lift. by rewrite Ec.
Qed.

Lemma sequential_file_Raise args total fn st e :
  let path := output_path (output args) (output_format args) fn in
  fst (PosixPath.split path) ∈ dirs ->
  call_file fn = Raise e ->
  sequential_file args total fn st
  = (Raise e, mkState (Some (mkFileObject path false)) (done st)
                      (<[path := ""]> (written st)) (stderr st) (stdout st)).
Proof.
  intros path Hd Ec. unfold sequential_file. subst path. unfold output_path in *.
  destruct (PosixPath.split fn) as [head tail]. cbn [snd] in *.
  unfold bind at 1, open_w. rewrite decide_True by done.
  unfold bind at 1, set_fout. cbn. unfold bind at 1, lift. by rewrite Ec.
Qed.


(** C6. A container file that fails as a whole with an I/O error (it cannot
    be opened, its layout or one of its reads cannot be read, or the
    iteration over its reads breaks off) makes [call_file] return the empty
    list; the sequential run then goes on with the remaining files, the
    failed file's output holding no record and no progress line being
    printed for it. *)
Theorem unreadable_file_is_skipped (filename : string) :
  unreadable call_raw_signal disk filename ->
  call_file filename = Ok []
  /\ forall args total st rest,
       let path := output_path (output args) (output_format args) filename in
       fst (PosixPath.split path) ∈ dirs ->
       for_each (filename :: rest) (sequential_file args total) st
       = for_each rest (sequential_file args total)
           (mkState (Some (mkFileObject path true)) (done st)
                    (<[path := ""]> (written st)) (stderr st) (stdout st)).
Proof.
  intros Hu.
  assert (Ec : call_file filename = Ok []).
  { unfold call_file. by rewrite (call_file_body_unreadable _ Hu). }
  split; [exact Ec|]. intros args total st rest path Hd.
  cbn [for_each]. unfold bind at 1.
  rewrite (sequential_file_opened args total filename st [] Hd Ec).
  reflexivity.
Qed.


(** C7. [write_output] prints nothing for a result with an empty basecall,
    whatever the format; for a non-empty basecall it prints, to the stream
    bound to [fout], two lines for fasta ([>] and the read id, the basecall)
    and four lines for fastq (the header [@id runid=.. read=.. ch=..
    start_time=..], the basecall, [+], the quality string). *)
Theorem write_output_lines (r : call_result) (o f : file_object) (st : state) :
  fout st = Some f -> closed f = false ->
  (cr_basecall r = "" -> forall format, write_output r o format st = (Ok tt, st))
  /\ (cr_basecall r <> "" ->
      write_output r o "fasta" st
      = (Ok tt, emit f [">" +:+ cr_read_id r; cr_basecall r] st))
  /\ (cr_basecall r <> "" -> forall n, cr_read_number r = AInt n ->
      write_output r o "fastq" st
      = (Ok tt,
         emit f ["@" +:+ cr_read_id r +:+ " runid=" +:+ cr_run_id r +:+ " read="
                 +:+ Str.of_Z n +:+ " ch=" +:+ cr_channel_number r
                 +:+ " start_time=" +:+ cr_start_time r;
                 cr_basecall r; "+"; cr_qual r] st)).
Proof.
  intros Ef Ec. split; [|split].
  - intros Eb format. by apply write_output_empty.
  - intros Eb. by apply write_output_fasta.
  - intros Eb n En. apply write_output_fastq; try done. by rewrite En.
Qed.

(** C10. [write_output] never reads its [output_file] argument: two calls that
    differ only in it behave alike.  Where the text goes is decided by the
    global [fout]: bound to an open stream, that stream receives the record;
    unbound, printing raises NameError. *)
Theorem write_output_ignores_output_file (r : call_result) (format : string) (st : state) :
  (forall s1 s2 : file_object, write_output r s1 format st = write_output r s2 format st)
  /\ (forall s f, fout st = Some f -> closed f = false -> cr_basecall r <> "" ->
        write_output r s "fasta" st
        = (Ok tt, emit f [">" +:+ cr_read_id r; cr_basecall r] st))
  /\ (forall s, fout st = None -> cr_basecall r <> "" ->
        write_output r s "fasta" st = (Raise NameError, st)).
Proof.
  split; [reflexivity|]. split.
  - intros s f Ef Ec Eb. by apply write_output_fasta.
  - intros s Ef Eb. unfold write_output. rewrite string_length_pos by done. cbn.
    unfold bind, get_fout. by rewrite Ef.
Qed.

(** *** The parallel branch *)

Lemma report_all_unbound args total out st :
  fout st = None ->
  for_each out (write_and_report args total) st
  = (match out with [] => Ok tt | _ => Raise NameError end, st).
Proof.
  intros Ef. destruct out as [|r out]; [done|].
  by apply for_each_Raise, write_and_report_unbound.
Qed.

Lemma parallel_loop_unbound args total completion st :
  fout st = None ->
  exists res,
    for_each completion (parallel_file args total) st = (res, st)
    /\ (Forall (fun fn => is_Ok (call_file fn) = true) completion ->
        res = Ok tt \/ res = Raise NameError).
Proof.
  intros Ef. induction completion as [|fn l IH].
  - exists (Ok tt). split; [done|]. by left.
  - destruct IH as (res & E & Hres). cbn [for_each]. unfold bind at 1.
    unfold parallel_file at 1. unfold bind at 1, lift.
    destruct (call_file fn) as [out|e] eqn:Ec.
    + rewrite (report_all_unbound _ _ _ _ Ef). destruct out as [|r out].
      * exists res. split; [done|]. intros Hall. apply Hres. by inversion Hall.
      * exists (Raise NameError). split; [done|]. by right.
    + exists (Raise e). split; [done|]. intros Hall.
      inversion Hall as [|? ? Hx]. by rewrite Ec in Hx.
Qed.

(** C1. In parallel mode the run never opens an output stream: [fout] is
    unbound, so the first result delivered, or else the closing
    [fout.close()], raises, and no output file has been created or written
    when the run stops.  With workers that all return, the exception is
    NameError. *)
Theorem parallel_mode_opens_no_stream (args : arguments) (files completion : list string) :
  1 < threads args -> files <> [] ->
  exists e,
    main call_raw_signal disk dirs args files completion initial
    = (Raise e, initial)
    /\ (Forall (fun fn => is_Ok (call_file fn) = true) completion -> e = NameError).
Proof.
  intros Ht Hf. unfold main.
  destruct (threads args <? 1) eqn:E1; [lia|].
  destruct (length files =? 0)%nat eqn:E2.
  { apply Nat.eqb_eq in E2. by destruct files. }
  destruct (threads args <=? 1) eqn:E3; [lia|].
  destruct (parallel_loop_unbound args (Z.of_nat (length files)) completion initial)
    as (res & E & Hres); [done|].
  unfold bind at 1. unfold main_parallel, bind at 1, set_done.
  cbn [fout done written stderr stdout initial]. change (mkState None 0 ∅ [] []) with initial.
  rewrite E. destruct res as [[]|e].
  - exists NameError. split; [done|]. done.
  - exists e. split; [done|]. intros Hall. destruct (Hres Hall); congruence.
Qed.

(** *** Progress lines *)

(** C9, as the script has it. Every result written and reported gets its
    progress line, whether or not its basecall is empty and a record was
    printed for it: after the results [out] of a file the diagnostic stream
    has one more line per result, in order, counted up from the count
    before. *)
Theorem progress_reports_every_result
    (args : arguments) (total : Z) (out : list call_result) (st : state) (f : file_object) :
  fout st = Some f -> closed f = false ->
  Forall (fun r => is_Ok (format_d (cr_read_number r)) = true) out ->
  exists st',
    for_each out (write_and_report args total) st = (Ok tt, st')
    /\ stderr st' = stderr st ++ reports (done st) total out
    /\ done st' = done st + Z.of_nat (length out).
Proof.
  intros Ef Ec Hall. revert st Ef.
  induction Hall as [|r out Hr _ IH]; intros st Ef.
  - exists st. cbn. rewrite app_nil_r. split; [done|]. split; [done|lia].
  - destruct (write_and_report_Ok args total r st f Ef Ec Hr) as (st1 & E1 & Hf & Hd & He).
    destruct (IH st1) as (st2 & E2 & He2 & Hd2); [congruence|].
    exists st2. cbn [for_each]. erewrite bind_Ok by exact E1.
    split; [done|]. rewrite He2, Hd2, He, Hd. cbn [reports length].
    rewrite <- app_assoc. split; [done|lia].
Qed.

(** *** Reads without a required attribute *)

Lemma getitem_alter_eq {V} (f : V -> V) (m : gmap string V) (g : string) :
  getitem (alter f g m) g = v ← getitem m g; Ok (f v).
Proof. unfold getitem. rewrite lookup_alter_eq. by destruct (m !! g). Qed.

Lemma getitem_alter_ne {V} (f : V -> V) (m : gmap string V) (g g' : string) :
  g <> g' -> getitem (alter f g m) g' = getitem m g'.
Proof. intros Hne. unfold getitem. by rewrite lookup_alter_ne. Qed.

Lemma getitem_delete_eq {V} (m : gmap string V) (k : string) :
  getitem (delete k m) k = Raise KeyError.
Proof. unfold getitem. by rewrite lookup_delete_eq. Qed.

Lemma getitem_delete_ne {V} (m : gmap string V) (k k' : string) :
  k <> k' -> getitem (delete k m) k' = getitem m k'.
Proof. intros Hne. unfold getitem. by rewrite lookup_delete_ne. Qed.

Ltac split_metadata :=
  unfold mbind, result_bind, rbind in *;
  repeat match goal with
         | H : context [match ?x with Ok _ => _ | Raise _ => _ end] |- _ =>
             destruct x eqn:?; try discriminate H
         end;
  try reflexivity.

Lemma read_metadata_without_attr ftype r0 group key :
  is_Ok (read_metadata ftype r0) = true ->
  (group, key) ∈ required_attrs ftype r0 ->
  read_metadata ftype (without_attr group key r0) = Raise KeyError.
Proof.
  intros Hok Hin. unfold required_attrs in Hin.
  assert (Hc : "Raw" <> global_key r0 +:+ "channel_id") by (apply Raw_ne_global; cbn; lia).
  assert (Ht : "Raw" <> global_key r0 +:+ "tracking_id") by (apply Raw_ne_global; cbn; lia).
  assert (Hct : global_key r0 +:+ "channel_id" <> global_key r0 +:+ "tracking_id").
  { intros E. by apply string_app_inj in E. }
  unfold read_metadata in *.
  cbn [read_id run_id global_key handle status_read_info without_attr].
  destruct (String.eqb ftype "multi-read") eqn:Etype;
    set_unfold in Hin; destruct_or!; simplify_eq;
    rewrite ?getitem_alter_eq, ?getitem_alter_ne by congruence;
    split_metadata; cbn;
    rewrite ?getitem_delete_eq, ?getitem_delete_ne by done;
    repeat match goal with H : _ = Ok _ |- _ => rewrite H; clear H end;
    try reflexivity.
Qed.

Lemma call_read_metadata_Raise ftype r e :
  read_metadata ftype r = Raise e -> call_read ftype r = Raise e.
Proof. intros E. unfold call_read. by rewrite E. Qed.

Lemma call_read_start_time ftype r c rid run num off ch rate exp :
  read_metadata ftype r = Ok (rid, run, num, AInt off, ch, AFloat rate, exp) ->
  call_read ftype r = Ok c ->
  start_time_of exp off rate = Ok (cr_start_time c).
Proof.
  intros Em. unfold call_read, start_time_of. rewrite Em.
  unfold mbind, result_bind, rbind.
  destruct (true_divide (AInt off) (AFloat rate)) as [delta|]; [|done].
  destruct (add_time_seconds exp delta) as [t|]; [|done].
  destruct (raw_data r) as [signal|]; [|done].
  destruct (call_raw_signal _) as [[basecall qual]|]; [|done].
  by intros [= <-].
Qed.

(** C2, as the script has it. A read that lacks one of the attributes the
    loop looks up raises KeyError, which [call_file] does not catch: the call
    returns no result for any read of the file, and the sequential run stops
    at this file with its output created and empty, the files after it never
    being processed. *)
Theorem missing_attribute_aborts_the_file
    (filename : string) (f5 : file) (ftype : string)
    (before after : list read) (r0 : read) (group key : string) :
  get_fast5_file disk filename = Ok f5 ->
  file_type f5 = Ok ftype ->
  is_Ok (read_metadata ftype r0) = true ->
  (group, key) ∈ required_attrs ftype r0 ->
  reads f5 = before ++ without_attr group key r0 :: after ->
  Forall (fun x => is_Ok (call_read ftype x) = true) before ->
  call_file filename = Raise KeyError
  /\ forall args total st rest,
       let path := output_path (output args) (output_format args) filename in
       fst (PosixPath.split path) ∈ dirs ->
       for_each (filename :: rest) (sequential_file args total) st
       = (Raise KeyError,
          mkState (Some (mkFileObject path false)) (done st)
                  (<[path := ""]> (written st)) (stderr st) (stdout st)).
Proof.
  intros Eo Et Hok Hin Er Hb.
  assert (Ec : call_file filename = Raise KeyError).
  { unfold call_file, call_file_body. rewrite Eo. cbn. rewrite Et. cbn. rewrite Er.
    rewrite (call_reads_Raise _ _ _ _ _ KeyError); [done|done|].
    by apply call_read_metadata_Raise, read_metadata_without_attr. }
  split; [exact Ec|]. intros args total st rest path Hd.
  apply for_each_Raise. by apply sequential_file_Raise.
Qed.

End ScriptFacts.

(** *** The start time of a read *)

Section StartTime.
Import Datetime DatetimeFacts.

Lemma timedelta_seconds_Finite (q : Q) :
  let us := round_half_even (q * inject_Z 1000000) in
  -80000000000000 <= us / 1000000 <= 80000000000000 ->
  timedelta_seconds (Finite q) = Ok (timedelta_of_microseconds us).
Proof.
  intros us Hus. unfold timedelta_seconds. fold us.
  unfold timedelta_of_microseconds at 1. cbn [days].
  destruct (Z.leb_spec (Z.abs (us / 1000000 / 86400)) 999999999) as [E|E]; [done|].
  exfalso. revert E Hus. generalize (us / 1000000). intros z E Hz.
  assert (-999999999 <= z / 86400 <= 999999999) by (Z.div_mod_to_equations; lia).
  lia.
Qed.

(** C5, as the script has it. The start time of a read is the experiment
    start time plus the quotient [start_offset / sampling_rate] in seconds,
    where the quotient is the binary64 number the division returns (the
    offset converted to binary64, the division rounded to nearest, ties to
    even) and has to be finite; this number is rounded to whole microseconds
    (halves to even), the sum then printed as YYYY-MM-DDTHH:MM:SSZ with what
    is left of the fraction cut off and no change of time zone; the sum has
    to fall within the years 1 to 9999.  This is the start time [call_file]
    puts in the result of a read.  An offset of 4000 samples at 4000 samples
    a second after 2021-01-01T00:00:00Z gives 2021-01-01T00:00:01Z. *)
Theorem start_time_reconstruction :
  (forall (exp_start_time : string) (base : datetime)
          (start_offset : Z) (sampling_rate : Q) (quotient : Q),
      strptime exp_start_time = Ok base ->
      true_divide (AInt start_offset) (AFloat sampling_rate) = Ok (Finite quotient) ->
      let us := round_half_even (quotient * inject_Z 1000000) in
      let t := to_seconds base + us / 1000000 in
      86400 <= t < (_MAXORDINAL + 1) * 86400 ->
      exists d,
        start_time_of exp_start_time start_offset sampling_rate = Ok (strftime d)
        /\ check_fields d = true
        /\ to_seconds d = t
        /\ (1000 <= year d -> String.length (strftime d) = 20%nat))
  /\ (forall (F : Type) (ops : Float32 F)
             (call_raw_signal : list F -> result (string * string))
             (ftype : string) (r : read) (c : call_result)
             (read_id run_id : string) (read_number : attr) (start_offset : Z)
             (channel_number : string) (sampling_rate : Q) (exp_start_time : string),
        read_metadata ftype r
        = Ok (read_id, run_id, read_number, AInt start_offset, channel_number,
              AFloat sampling_rate, exp_start_time) ->
        call_read call_raw_signal ftype r = Ok c ->
        start_time_of exp_start_time start_offset sampling_rate = Ok (cr_start_time c))
  /\ start_time_of "2021-01-01T00:00:00Z" 4000 (4000 # 1) = Ok "2021-01-01T00:00:01Z".
Proof.
  split; [|split; [|by vm_compute]]; cycle 1.
  { intros ? ? ? ? ? ? ? ? ? ? ? ? ? Em Ec. by eapply call_read_start_time. }
  intros s base start_offset sampling_rate quotient Hs Hq us t Ht.
  destruct (strptime_Ok s base Hs) as [Hc Hus].
  pose proof (to_seconds_bounds base Hc) as Hb.
  destruct (add_seconds base us Hc Hus Ht) as (d & Ea & Hd & Hsec).
  exists d. split; [|split; [done|split; [done|]]].
  - unfold start_time_of. rewrite Hq.
    unfold add_time_seconds, mbind, result_bind, rbind. rewrite Hs.
    rewrite timedelta_seconds_Finite.
    + fold us. by rewrite Ea.
    + fold us. subst t. unfold _MAXORDINAL in Ht. lia.
  - intros Hy. by apply strftime_length.
Qed.

End StartTime.

(** *** The statements at the sample data *)

Section Samples.
Import Sample.

(** C5, as the specification has it, fails: a read that starts 2999999
    samples in at 3000000 samples a second is 0.9999996... seconds in, which
    the script rounds up to a whole second before it cuts the fraction off. *)
Lemma start_time_is_rounded_before_it_is_cut :
  start_time_of "2021-01-01T00:00:00Z" 2999999 (3000000 # 1)
    = Ok "2021-01-01T00:00:01Z"
  /\ start_time_as_specified "2021-01-01T00:00:00Z" 2999999 (3000000 # 1)
    = Ok "2021-01-01T00:00:00Z".
Proof. by vm_compute. Qed.

(** The quotient is the binary64 one: 172799999999 samples at 2000000 samples
    a second are 86399.9999995 seconds, half a microsecond short of a day,
    but the binary64 quotient lies below that and is rounded down. *)
Example start_time_of_a_quotient_below_the_tie :
  start_time_of "2021-01-01T00:00:00Z" 172799999999 (2000000 # 1)
  = Ok "2021-01-01T23:59:59Z".
Proof. by vm_compute. Qed.

Lemma start_time_reconstruction_witness :
  exists d,
    start_time_of "2021-01-01T00:00:00Z" 172799999999 (2000000 # 1)
    = Ok (Datetime.strftime d)
    /\ Datetime.check_fields d = true
    /\ Datetime.to_seconds d
       = Datetime.to_seconds (Datetime.mkDatetime 2021 1 1 0 0 0 0)
         + 86399999999 / 1000000
    /\ (1000 <= Datetime.year d -> String.length (Datetime.strftime d) = 20%nat).
Proof.
  apply (proj1 start_time_reconstruction
           "2021-01-01T00:00:00Z" (Datetime.mkDatetime 2021 1 1 0 0 0 0)
           172799999999 (2000000 # 1) (5937362789956040 # 68719476736)).
  - reflexivity.
  - reflexivity.
  - vm_compute. split; [intros E; discriminate E | reflexivity].
Defined.

(** C1, at the sample data: two workers, one input file. *)
Lemma parallel_mode_opens_no_stream_witness :
  exists e,
    main decoder disk dirs (args 2 "fasta" false) ["in/a.fast5"] ["in/a.fast5"] initial
    = (Raise e, initial)
    /\ (Forall (fun fn => is_Ok (call_file decoder disk fn) = true) ["in/a.fast5"] ->
        e = NameError).
Proof.
  apply (parallel_mode_opens_no_stream decoder disk dirs (args 2 "fasta" false)
           ["in/a.fast5"] ["in/a.fast5"]).
  - reflexivity.
  - discriminate.
Defined.

Example parallel_run_of_the_sample :
  main decoder disk dirs (args 2 "fasta" false) ["in/a.fast5"] ["in/a.fast5"] initial
  = (Raise NameError, initial).
Proof. by vm_compute. Qed.

(** C2, as the specification has it, fails: in [c.fast5] the first read has no
    read number and the second is a good read, yet [call_file] returns no
    result at all, and the sequential run stops there without touching
    [a.fast5], which comes after. *)
Lemma missing_attribute_loses_the_whole_file :
  call_file decoder disk "in/c.fast5" = Raise KeyError
  /\ is_Ok (call_read decoder "multi-read" r2) = true
  /\ (let run := main decoder disk dirs (args 1 "fasta" false)
                   ["in/c.fast5"; "in/a.fast5"] [] initial in
      fst run = Raise KeyError
      /\ written (snd run) !! "out/c.fasta" = Some ""
      /\ written (snd run) !! "out/a.fasta" = None
      /\ stderr (snd run) = []).
Proof. by vm_compute. Qed.

Lemma missing_attribute_aborts_the_file_witness :
  call_file decoder disk "in/c.fast5" = Raise KeyError
  /\ forall args total st rest,
       let path := output_path (output args) (output_format args) "in/c.fast5" in
       fst (PosixPath.split path) ∈ dirs ->
       for_each ("in/c.fast5" :: rest) (sequential_file decoder disk dirs args total) st
       = (Raise KeyError,
          mkState (Some (mkFileObject path false)) (done st)
                  (<[path := ""]> (written st)) (stderr st) (stdout st)).
Proof.
  apply (missing_attribute_aborts_the_file decoder disk dirs "in/c.fast5"
           (mkFile (Ok "multi-read") [without_attr "Raw" "read_number" r1; r2] None)
           "multi-read" [] [r2] r1 "Raw" "read_number").
  - by vm_compute.
  - reflexivity.
  - by vm_compute.
  - by left.
  - reflexivity.
  - constructor.
Defined.

(** C3, at the sample data. The [--gzip-output] flag changes nothing: [main]
    with the flag set is [main] with the flag cleared, and a sequential run
    with the flag set opens [out/a.fasta], not a [.gz] file, and leaves the
    records in it as plain text. *)
Theorem gzip_output_is_ignored :
  (forall (F : Type) (ops : Float32 F)
          (call_raw_signal : list F -> result (string * string))
          (disk : gmap string (result file)) (dirs : gset string)
          (out_dir : string) (threads : Z) (format : string)
          (files completion : list string) (st : state),
      main call_raw_signal disk dirs (mkArgs out_dir threads format true)
           files completion st
      = main call_raw_signal disk dirs (mkArgs out_dir threads format false)
             files completion st)
  /\ (let run := main decoder disk dirs (args 1 "fasta" true) ["in/a.fast5"] [] initial in
      fst run = Ok tt
      /\ fout (snd run) = Some (mkFileObject "out/a.fasta" true)
      /\ written (snd run) !! "out/a.fasta" = Some (unlines [">r1"; "ACGT"; ">r2"; "ACGT"])
      /\ written (snd run) !! "out/a.fasta.gz" = None).
Proof. split; [reflexivity | by vm_compute]. Qed.

Lemma unreadable_file_is_skipped_witness :
  call_file decoder disk "in/d.fast5" = Ok []
  /\ forall args total st rest,
       let path := output_path (output args) (output_format args) "in/d.fast5" in
       fst (PosixPath.split path) ∈ dirs ->
       for_each ("in/d.fast5" :: rest) (sequential_file decoder disk dirs args total) st
       = for_each rest (sequential_file decoder disk dirs args total)
           (mkState (Some (mkFileObject path true)) (done st)
                    (<[path := ""]> (written st)) (stderr st) (stdout st)).
Proof.
  apply (unreadable_file_is_skipped decoder disk dirs "in/d.fast5").
  apply cannot_open. by vm_compute.
Defined.

Example run_over_an_unreadable_file :
  let run := main decoder disk dirs (args 1 "fasta" false)
               ["in/d.fast5"; "in/a.fast5"] [] initial in
  fst run = Ok tt
  /\ written (snd run) !! "out/d.fasta" = Some ""
  /\ written (snd run) !! "out/a.fasta" = Some (unlines [">r1"; "ACGT"; ">r2"; "ACGT"]).
Proof. by vm_compute. Qed.

Lemma write_output_lines_witness :
  let f := mkFileObject "out/a.fastq" false in
  let st := opened "out/a.fastq" in
  (cr_basecall c1 = "" -> forall format, write_output c1 f format st = (Ok tt, st))
  /\ (cr_basecall c1 <> "" ->
      write_output c1 f "fasta" st
      = (Ok tt, emit f [">" +:+ cr_read_id c1; cr_basecall c1] st))
  /\ (cr_basecall c1 <> "" -> forall n, cr_read_number c1 = AInt n ->
      write_output c1 f "fastq" st
      = (Ok tt,
         emit f ["@" +:+ cr_read_id c1 +:+ " runid=" +:+ cr_run_id c1 +:+ " read="
                 +:+ Str.of_Z n +:+ " ch=" +:+ cr_channel_number c1
                 +:+ " start_time=" +:+ cr_start_time c1;
                 cr_basecall c1; "+"; cr_qual c1] st)).
Proof.
  apply (write_output_lines c1 (mkFileObject "out/a.fastq" false)
           (mkFileObject "out/a.fastq" false) (opened "out/a.fastq"));
    reflexivity.
Defined.

Example fastq_record_of_the_sample :
  let st := snd (write_output c1 (mkFileObject "out/a.fastq" false) "fastq"
                   (opened "out/a.fastq")) in
  written st !! "out/a.fastq"
  = Some (unlines ["@r1 runid=run1 read=7 ch=12 start_time=2021-01-01T00:00:01Z";
                   "ACGT"; "+"; "!!!!"]).
Proof. by vm_compute. Qed.


(** C9, as the specification has it, fails: the one read of [b.fast5] decodes
    to an empty basecall, no record is printed for it, and its progress line
    is printed all the same. *)
Lemma progress_line_for_an_empty_basecall :
  call_file decoder disk "in/b.fast5"
    = Ok [mkCall "r0" "run1" (AInt 9) "12" "2021-01-01T00:00:01Z" "" ""]
  /\ (let run := main decoder disk dirs (args 1 "fasta" false) ["in/b.fast5"] [] initial in
      fst run = Ok tt
      /\ written (snd run) !! "out/b.fasta" = Some ""
      /\ stderr (snd run) = [mkProgress 1 1 "r0"]).
Proof. by vm_compute. Qed.

Lemma progress_reports_every_result_witness :
  let silent_call := mkCall "r0" "run1" (AInt 9) "12" "2021-01-01T00:00:01Z" "" "" in
  exists st',
    for_each [silent_call; c1] (write_and_report (args 1 "fasta" false) 1)
             (opened "out/b.fasta")
    = (Ok tt, st')
    /\ stderr st' = stderr (opened "out/b.fasta")
                    ++ reports (done (opened "out/b.fasta")) 1 [silent_call; c1]
    /\ done st' = done (opened "out/b.fasta") + Z.of_nat (length [silent_call; c1]).
Proof.
  apply (progress_reports_every_result (args 1 "fasta" false) 1 _
           (opened "out/b.fasta") (mkFileObject "out/b.fasta" false)).
  - reflexivity.
  - reflexivity.
  - repeat constructor.
Defined.

End Samples.

(** ** Further properties of the script *)

Lemma all_from_spec (n : nat) (lo : Z) (p : Z -> bool) (z : Z) :
  all_from n lo p = true -> lo <= z < lo + Z.of_nat n -> p z = true.
Proof.
  revert lo. induction n as [|n IH]; intros lo Hall Hz; [lia|].
  cbn [all_from] in Hall. apply andb_true_iff in Hall. destruct Hall as [Hlo Hall].
  destruct (Z.eq_dec z lo) as [->|Hne]; [done|]. apply (IH (lo + 1)); [done|lia].
Qed.

Section MoreScriptFacts.

Context {F : Type} `{Float32 F}.
Variable call_raw_signal : list F -> result (string * string).
Variable disk : gmap string (result file).
Variable dirs : gset string.

#[local] Abbreviation call_read := (call_read call_raw_signal).
#[local] Abbreviation call_reads := (call_reads call_raw_signal).
#[local] Abbreviation call_file := (call_file call_raw_signal disk).
#[local] Abbreviation call_file_body := (call_file_body call_raw_signal disk).
#[local] Abbreviation sequential_file := (sequential_file call_raw_signal disk dirs).
#[local] Abbreviation main_sequential := (main_sequential call_raw_signal disk dirs).
#[local] Abbreviation main := (main call_raw_signal disk dirs).

Lemma call_reads_inv ftype rs acc out :
  call_reads ftype rs acc = Ok out ->
  exists res, out = acc ++ res /\ Forall2 (fun r c => call_read ftype r = Ok c) rs res.
Proof.
  revert acc. induction rs as [|r rs IH]; intros acc; cbn.
  - intros [= <-]. exists []. by rewrite app_nil_r.
  - destruct (call_read ftype r) as [c|] eqn:E; [|done]. cbn. intros E'.
    destruct (IH _ E') as (res & -> & H2). exists (c :: res).
    rewrite <- app_assoc. split; [done|]. by constructor.
Qed.

(** X1. [call_file] never raises an OSError and never returns part of a
    file: a list it returns is empty or holds one result for every read of
    the file, in order. *)
Theorem call_file_all_or_nothing (filename : string) :
  (forall e, call_file filename = Raise e -> is_OSError e = false)
  /\ (forall out, call_file filename = Ok out ->
        out = []
        \/ exists f5 ftype,
             get_fast5_file disk filename = Ok f5
             /\ file_type f5 = Ok ftype
             /\ reads_raise f5 = None
             /\ Forall2 (fun r c => call_read ftype r = Ok c) (reads f5) out).
Proof.
  unfold call_file, except_OSError. split.
  - intros e. destruct (call_file_body filename) as [out|e']; [done|].
    destruct (is_OSError e') eqn:E; [done|]. by intros [= <-].
  - intros out. destruct (call_file_body filename) as [out'|e'] eqn:Eb.
    + intros [= <-]. right. revert Eb. unfold call_file_body.
      destruct (get_fast5_file disk filename) as [f5|]; [|done]. cbn.
      destruct (file_type f5) as [ftype|] eqn:Et; [|done]. cbn.
      destruct (call_reads ftype (reads f5) []) as [res|] eqn:Er; [|done]. cbn.
      destruct (reads_raise f5) eqn:Ee; [done|]. intros [= <-].
      apply call_reads_inv in Er. destruct Er as (res' & -> & H2).
      by exists f5, ftype.
    + destruct (is_OSError e'); [|done]. intros [= <-]. by left.
Qed.

(** *** What [write_output] changes *)

Lemma emit_frame f lines st :
  fout (emit f lines st) = fout st /\ done (emit f lines st) = done st
  /\ stderr (emit f lines st) = stderr st /\ stdout (emit f lines st) = stdout st
  /\ forall p, p <> name f -> written (emit f lines st) !! p = written st !! p.
Proof. repeat split. intros p Hp. cbn. by rewrite lookup_insert_ne. Qed.

(** The three ways a call of [write_output] can end. *)
Lemma write_output_outcome r o format st :
  (record_lines format r = Ok [] /\ write_output r o format st = (Ok tt, st))
  \/ (exists f lines, fout st = Some f /\ closed f = false
        /\ record_lines format r = Ok lines
        /\ write_output r o format st = (Ok tt, emit f lines st))
  \/ (exists e, write_output r o format st = (Raise e, st)).
Proof.
  unfold write_output, record_lines.
  destruct (String.length (cr_basecall r) =? 0)%nat eqn:Eb; [by left|]. right.
  assert (Hb : cr_basecall r <> "") by (intros E; by rewrite E in Eb).
  destruct (fout st) as [f|] eqn:Ef; cycle 1.
  { right. destruct (String.eqb format "fasta").
    - exists NameError. unfold bind, get_fout. by rewrite Ef.
    - destruct (format_d (cr_read_number r)) as [num|e].
      + exists NameError. unfold bind, lift, get_fout. by rewrite Ef.
      + exists e. by unfold bind, lift. }
  destruct (closed f) eqn:Ec.
  { right. destruct (String.eqb format "fasta").
    - exists ValueError. unfold bind, get_fout, print_file. by rewrite Ef, Ec.
    - destruct (format_d (cr_read_number r)) as [num|e].
      + exists ValueError. unfold bind, lift, get_fout, print_file. by rewrite Ef, Ec.
      + exists e. by unfold bind, lift. }
  destruct (String.eqb format "fasta") eqn:Efmt.
  - left. exists f, [">" +:+ cr_read_id r; cr_basecall r]. repeat split; try done.
    apply String.eqb_eq in Efmt. subst format.
    pose proof (write_output_fasta r o st f Hb Ef Ec) as E.
    unfold write_output in E. by rewrite Eb in E.
  - apply String.eqb_neq in Efmt.
    destruct (format_d (cr_read_number r)) as [num|e] eqn:En.
    + left. exists f, [fastq_header r num; cr_basecall r; "+"; cr_qual r].
      repeat split; try done.
      pose proof (write_output_fastq r o format st f num Hb Efmt En Ef Ec) as E.
      unfold write_output in E. rewrite Eb in E.
      apply String.eqb_neq in Efmt. by rewrite Efmt, En in E.
    + right. exists e. by unfold bind, lift.
Qed.

(** X2. A call of [write_output] prints a whole record or nothing: when it
    raises, no file has changed.  It never rebinds [fout], never touches the
    counter or the standard streams, and changes no file but the one [fout]
    names. *)
Theorem write_output_all_or_nothing (r : call_result) (o : file_object)
    (format : string) (st : state) :
  let res := fst (write_output r o format st) in
  let st' := snd (write_output r o format st) in
  (res = Ok tt \/ st' = st)
  /\ fout st' = fout st /\ done st' = done st
  /\ stderr st' = stderr st /\ stdout st' = stdout st
  /\ (forall p, fout st <> Some (mkFileObject p false) -> written st' !! p = written st !! p).
Proof.
  destruct (write_output_outcome r o format st)
    as [[_ E] | [(f & lines & Ef & Ec & _ & E) | [e E]]]; rewrite E; cbn [fst snd].
  - repeat split; auto.
  - destruct (emit_frame f lines st) as (H1 & H2 & H3 & H4 & H5).
    repeat split; auto. intros p Hp. apply H5. intros ->. apply Hp. rewrite Ef.
    destruct f as [n c]. cbn in *. by subst c.
  - repeat split; auto.
Qed.

(** *** The sequential branch, file by file *)

Lemma unlines_app (l1 l2 : list string) : unlines (l1 ++ l2) = unlines l1 +:+ unlines l2.
Proof.
  induction l1 as [|x l1 IH]; [done|]. cbn [unlines app].
  by rewrite !string_app_assoc, IH.
Qed.

Lemma for_each_app {A} (l1 l2 : list A) (body : A -> M unit) st st1 :
  for_each l1 body st = (Ok tt, st1) ->
  for_each (l1 ++ l2) body st = for_each l2 body st1.
Proof.
  revert st. induction l1 as [|x l1 IH]; intros st E; cbn in *.
  - by inversion E.
  - unfold bind in *. destruct (body x st) as [[[]|e] st2]; [|done]. by apply IH.
Qed.

Lemma reports_app n total (l1 l2 : list call_result) :
  reports n total (l1 ++ l2)
  = reports n total l1 ++ reports (n + Z.of_nat (length l1)) total l2.
Proof.
  revert n. induction l1 as [|r l1 IH]; intros n; cbn [reports app length].
  - by rewrite Z.add_0_r.
  - rewrite IH. do 3 f_equal. lia.
Qed.

Lemma record_lines_Ok format r :
  is_Ok (record_lines format r) = true -> exists lines, record_lines format r = Ok lines.
Proof. destruct (record_lines format r) as [l|]; [by exists l|done]. Qed.

Lemma write_output_emits r o format st f lines :
  fout st = Some f -> closed f = false ->
  record_lines format r = Ok lines ->
  write_output r o format st
  = (Ok tt, match lines with [] => st | _ => emit f lines st end).
Proof.
  intros Ef Ec. unfold record_lines.
  destruct (String.length (cr_basecall r) =? 0)%nat eqn:Eb.
  { intros [= <-]. unfold write_output. by rewrite Eb. }
  assert (Hb : cr_basecall r <> "") by (intros E; by rewrite E in Eb).
  destruct (String.eqb format "fasta") eqn:Efmt.
  - intros [= <-]. apply String.eqb_eq in Efmt. subst format.
    by apply write_output_fasta.
  - apply String.eqb_neq in Efmt.
    destruct (format_d (cr_read_number r)) as [num|] eqn:En; [|done].
    intros [= <-]. by apply write_output_fastq.
Qed.

Lemma write_and_report_step args total r st f lines :
  fout st = Some f -> closed f = false ->
  record_lines (output_format args) r = Ok lines ->
  exists st',
    write_and_report args total r st = (Ok tt, st')
    /\ fout st' = fout st /\ done st' = done st + 1
    /\ stderr st' = stderr st ++ [mkProgress (done st + 1) total (cr_read_id r)]
    /\ stdout st' = stdout st
    /\ (forall p, p <> name f -> written st' !! p = written st !! p)
    /\ (forall old, written st !! name f = Some old ->
          written st' !! name f = Some (old +:+ unlines lines)).
Proof.
  intros Ef Ec El. unfold write_and_report.
  unfold bind at 1. unfold get_fout at 1. rewrite Ef.
  erewrite bind_Ok by (by apply (write_output_emits _ _ _ _ f lines)).
  destruct lines as [|l lines].
  - eexists. split; [reflexivity|]. cbn. repeat split; try done.
    intros old ->. by rewrite string_app_nil_r.
  - eexists. split; [reflexivity|]. cbn. repeat split; try done.
    + intros p Hp. by rewrite lookup_insert_ne.
    + intros old ->. by rewrite lookup_insert_eq.
Qed.

Lemma report_all_steps args total out liness st f :
  fout st = Some f -> closed f = false ->
  Forall2 (fun r lines => record_lines (output_format args) r = Ok lines) out liness ->
  exists st',
    for_each out (write_and_report args total) st = (Ok tt, st')
    /\ fout st' = fout st /\ done st' = done st + Z.of_nat (length out)
    /\ stderr st' = stderr st ++ reports (done st) total out
    /\ stdout st' = stdout st
    /\ (forall p, p <> name f -> written st' !! p = written st !! p)
    /\ (forall old, written st !! name f = Some old ->
          written st' !! name f = Some (old +:+ unlines (concat liness))).
Proof.
  intros Ef Ec Hall. revert st Ef.
  induction Hall as [|r lines out liness Hr _ IH]; intros st Ef.
  - exists st. cbn. rewrite app_nil_r, Z.add_0_r. repeat split; try done.
    intros old ->. by rewrite string_app_nil_r.
  - destruct (write_and_report_step args total r st f lines Ef Ec Hr)
      as (st1 & E1 & Hf1 & Hd1 & He1 & Ho1 & Hp1 & Hw1).
    destruct (IH st1) as (st2 & E2 & Hf2 & Hd2 & He2 & Ho2 & Hp2 & Hw2); [congruence|].
    exists st2. cbn [for_each]. erewrite bind_Ok by exact E1.
    split; [done|]. rewrite Hf2, Hd2, He2, Ho2, Hf1, Hd1, He1, Ho1.
    cbn [reports length concat]. rewrite <- app_assoc. repeat split; try done.
    + lia.
    + intros p Hp. by rewrite Hp2, Hp1.
    + intros old Hold. rewrite (Hw2 _ (Hw1 _ Hold)), unlines_app.
      by rewrite string_app_assoc.
Qed.

Lemma sequential_file_steps args total fn st out liness :
  let path := output_path (output args) (output_format args) fn in
  fst (PosixPath.split path) ∈ dirs ->
  call_file fn = Ok out ->
  Forall2 (fun r lines => record_lines (output_format args) r = Ok lines) out liness ->
  exists st',
    sequential_file args total fn st = (Ok tt, st')
    /\ fout st' = Some (mkFileObject path true)
    /\ done st' = done st + Z.of_nat (length out)
    /\ stderr st' = stderr st ++ reports (done st) total out
    /\ stdout st' = stdout st
    /\ written st' !! path = Some (unlines (concat liness))
    /\ (forall p, p <> path -> written st' !! p = written st !! p).
Proof.
  intros path Hd Ec Hall.
  rewrite (sequential_file_opened call_raw_signal disk dirs args total fn st out Hd Ec).
  fold path.
  set (st0 := mkState (Some (mkFileObject path false)) (done st)
                      (<[path := ""]> (written st)) (stderr st) (stdout st)).
  destruct (report_all_steps args total out liness st0 (mkFileObject path false))
    as (st1 & E1 & Hf1 & Hd1 & He1 & Ho1 & Hp1 & Hw1); [done..|].
  cbn [name] in Hp1, Hw1.
  erewrite bind_Ok by exact E1.
  unfold close_fout, bind, get_fout, set_fout. rewrite Hf1. cbn.
  eexists. split; [reflexivity|]. cbn. rewrite Hd1, He1, Ho1. cbn.
  repeat split; try done.
  - rewrite (Hw1 ""); [done|]. cbn. by rewrite lookup_insert_eq.
  - intros p Hp. rewrite Hp1 by done. cbn. by rewrite lookup_insert_ne.
Qed.

(** X3. In the sequential branch the output file of an input file holds the
    records of that file's results, in order, and nothing else: what the file
    held before is overwritten.  No other file is touched, and the stream is
    closed afterwards. *)
Theorem sequential_file_writes_its_records
    (args : arguments) (total : Z) (fn : string) (st : state)
    (out : list call_result) (liness : list (list string)) :
  let path := output_path (output args) (output_format args) fn in
  fst (PosixPath.split path) ∈ dirs ->
  call_file fn = Ok out ->
  Forall2 (fun r lines => record_lines (output_format args) r = Ok lines) out liness ->
  exists st',
    sequential_file args total fn st = (Ok tt, st')
    /\ fout st' = Some (mkFileObject path true)
    /\ written st' !! path = Some (unlines (concat liness))
    /\ (forall p, p <> path -> written st' !! p = written st !! p).
Proof.
  intros path Hd Ec Hall.
  destruct (sequential_file_steps args total fn st out liness Hd Ec Hall)
    as (st' & E & Hf & _ & _ & _ & Hw & Hp).
  by exists st'.
Qed.

Lemma sequential_loop_steps args total files outs st :
  Forall2 (fun fn out =>
             fst (PosixPath.split (output_path (output args) (output_format args) fn)) ∈ dirs
             /\ call_file fn = Ok out
             /\ Forall (fun r => is_Ok (record_lines (output_format args) r) = true) out)
          files outs ->
  exists st',
    for_each files (sequential_file args total) st = (Ok tt, st')
    /\ done st' = done st + Z.of_nat (length (concat outs))
    /\ stderr st' = stderr st ++ reports (done st) total (concat outs)
    /\ stdout st' = stdout st
    /\ (files <> [] -> exists p, fout st' = Some (mkFileObject p true)).
Proof.
  intros Hall. revert st. induction Hall as [|fn out files outs (Hd & Ec & Hl) _ IH]; intros st.
  - exists st. cbn. rewrite app_nil_r, Z.add_0_r. by repeat split.
  - assert (exists liness,
               Forall2 (fun r lines => record_lines (output_format args) r = Ok lines)
                       out liness) as [liness Hliness].
    { clear -Hl. induction Hl as [|r out Hr _ [ls IH]]; [by exists []|].
      destruct (record_lines_Ok _ _ Hr) as [l El]. exists (l :: ls). by constructor. }
    destruct (sequential_file_steps args total fn st out liness Hd Ec Hliness)
      as (st1 & E1 & Hf1 & Hd1 & He1 & Ho1 & _).
    destruct (IH st1) as (st2 & E2 & Hd2 & He2 & Ho2 & Hf2).
    exists st2. cbn [for_each]. erewrite bind_Ok by exact E1.
    split; [done|]. rewrite Hd2, He2, Ho2, Hd1, He1, Ho1. cbn [concat].
    rewrite length_app, reports_app, <- app_assoc. repeat split; try done; [lia|].
    intros _. destruct files as [|fn' files].
    + cbn in E2. inversion E2; subst. by eexists.
    + by apply Hf2.
Qed.

(** X4. A sequential run ([--threads 1]) over files that can all be processed
    ends normally with every stream closed; the counter [done] ends at the
    number of results of all files together, and the diagnostic stream has
    gained one line per result, in file order and then read order, numbered
    from 1, each carrying the number of input files as its total. *)
Theorem sequential_run_reports_every_result
    (args : arguments) (files completion : list string)
    (outs : list (list call_result)) (st : state) :
  threads args = 1 -> files <> [] ->
  Forall2 (fun fn out =>
             fst (PosixPath.split (output_path (output args) (output_format args) fn)) ∈ dirs
             /\ call_file fn = Ok out
             /\ Forall (fun r => is_Ok (record_lines (output_format args) r) = true) out)
          files outs ->
  exists st',
    main args files completion st = (Ok tt, st')
    /\ done st' = Z.of_nat (length (concat outs))
    /\ stderr st' = stderr st
                    ++ reports 0 (Z.of_nat (length files)) (concat outs)
    /\ stdout st' = stdout st
    /\ exists p, fout st' = Some (mkFileObject p true).
Proof.
  intros Ht Hf Hall. unfold main. rewrite Ht. cbn [Z.ltb Z.leb Z.compare Pos.compare Pos.compare_cont].
  destruct (length files =? 0)%nat eqn:E0.
  { apply Nat.eqb_eq in E0. by destruct files. }
  set (st0 := mkState (fout st) 0 (written st) (stderr st) (stdout st)).
  destruct (sequential_loop_steps args (Z.of_nat (length files)) files outs st0 Hall)
    as (st1 & E1 & Hd1 & He1 & Ho1 & Hf1).
  destruct (Hf1 Hf) as [p Hp].
  unfold bind at 1. unfold main_sequential, bind at 1, set_done. fold st0. rewrite E1.
  unfold close_fout, bind, get_fout, set_fout. rewrite Hp. cbn.
  eexists. split; [reflexivity|]. cbn. rewrite Hd1, He1, Ho1. cbn.
  repeat split; try done. by exists p.
Qed.

(** X5. When a file makes [call_file] raise in the sequential branch, the run
    stops there with that exception: the files before it keep the output
    they were given (but for a file of the same name as the failing one's
    output, which is emptied), and no file after it is opened. *)
Theorem sequential_run_stops_at_the_failing_file
    (args : arguments) (total : Z) (before after : list string) (fn : string)
    (st st1 : state) (e : exn) :
  let path := output_path (output args) (output_format args) fn in
  for_each before (sequential_file args total) st = (Ok tt, st1) ->
  fst (PosixPath.split path) ∈ dirs ->
  call_file fn = Raise e ->
  for_each (before ++ fn :: after) (sequential_file args total) st
  = (Raise e,
     mkState (Some (mkFileObject path false)) (done st1)
             (<[path := ""]> (written st1)) (stderr st1) (stdout st1)).
Proof.
  intros path Eb Hd Ec. rewrite (for_each_app _ _ _ _ _ Eb).
  apply for_each_Raise. by apply sequential_file_Raise.
Qed.

(** X15. Two input files whose names have the same stem share one output
    file, and the later one wins: after both have been processed the file
    holds the records of the second only, while the diagnostic stream has
    reported the results of both. *)
Theorem same_stem_overwrites
    (args : arguments) (total : Z) (fn1 fn2 : string) (st : state)
    (out1 out2 : list call_result) (liness1 liness2 : list (list string)) :
  let path := output_path (output args) (output_format args) fn2 in
  output_path (output args) (output_format args) fn1 = path ->
  fst (PosixPath.split path) ∈ dirs ->
  call_file fn1 = Ok out1 -> call_file fn2 = Ok out2 ->
  Forall2 (fun r lines => record_lines (output_format args) r = Ok lines) out1 liness1 ->
  Forall2 (fun r lines => record_lines (output_format args) r = Ok lines) out2 liness2 ->
  exists st',
    for_each [fn1; fn2] (sequential_file args total) st = (Ok tt, st')
    /\ written st' !! path = Some (unlines (concat liness2))
    /\ stderr st' = stderr st ++ reports (done st) total (out1 ++ out2).
Proof.
  intros path Hp Hd E1 E2 H1 H2.
  assert (Hd1 : fst (PosixPath.split (output_path (output args) (output_format args) fn1))
                ∈ dirs) by (by rewrite Hp).
  destruct (sequential_file_steps args total fn1 st out1 liness1 Hd1 E1 H1)
    as (st1 & Es1 & _ & Hdone1 & Herr1 & _).
  destruct (sequential_file_steps args total fn2 st1 out2 liness2 Hd E2 H2)
    as (st2 & Es2 & _ & _ & Herr2 & _ & Hw2 & _).
  exists st2. cbn [for_each]. erewrite bind_Ok by exact Es1.
  erewrite bind_Ok by exact Es2. split; [done|]. split; [exact Hw2|].
  by rewrite Herr2, Herr1, Hdone1, reports_app, <- app_assoc.
Qed.

(** *** A sampling rate of zero *)

Lemma of_Q_zero (y : Q) : y == 0 -> B64.of_Q y = S754_zero false.
Proof.
  intros Hy. unfold B64.of_Q.
  assert (E : Qnum y = 0) by (unfold Qeq in Hy; cbn in Hy; lia).
  by rewrite E.
Qed.

Lemma true_divide_zero (start rate : attr) (x y : Q) :
  as_number start = Ok x -> as_number rate = Ok y -> y == 0 ->
  true_divide start rate = Ok Datetime.Infinite
  \/ true_divide start rate = Ok Datetime.NaN.
Proof.
  intros Ex Ey Hy. unfold true_divide. rewrite Ex, Ey.
  unfold mbind, result_bind, rbind. rewrite (of_Q_zero y Hy).
  destruct (B64.of_Q x); cbn; auto.
Qed.

Lemma call_read_zero_rate ftype r rid run num start ch rate exp x y :
  read_metadata ftype r = Ok (rid, run, num, start, ch, rate, exp) ->
  as_number start = Ok x -> as_number rate = Ok y -> y == 0 ->
  call_read ftype r = Raise ValueError \/ call_read ftype r = Raise OverflowError.
Proof.
  intros Em Ex Ey Hy. unfold call_read. rewrite Em.
  unfold mbind, result_bind, rbind.
  assert (Es : Datetime.strptime exp = Raise ValueError
               \/ exists b, Datetime.strptime exp = Ok b).
  { unfold Datetime.strptime.
    destruct (Datetime.match_format _) as [d|]; [|by left].
    destruct (Datetime.check_fields d); [right; by eexists | by left]. }
  destruct (true_divide_zero start rate x y Ex Ey Hy) as [E|E]; rewrite E;
    unfold add_time_seconds, mbind, result_bind, rbind;
    destruct Es as [Hs|[b Hs]]; rewrite Hs; cbn; auto.
Qed.

(** X6. A read whose sampling rate is zero cannot be given a start time: the
    quotient is infinite or not a number, the time arithmetic raises
    OverflowError or ValueError, and since [call_file] catches neither, the
    call raises and returns no result for any read of the file. *)
Theorem zero_sampling_rate_aborts_the_file
    (filename : string) (f5 : file) (ftype : string)
    (before after : list read) (r : read)
    (read_id run_id channel_number exp_start_time : string)
    (read_number start_time sampling_rate : attr) (x y : Q) :
  get_fast5_file disk filename = Ok f5 ->
  file_type f5 = Ok ftype ->
  reads f5 = before ++ r :: after ->
  Forall (fun x => is_Ok (call_read ftype x) = true) before ->
  read_metadata ftype r
  = Ok (read_id, run_id, read_number, start_time, channel_number, sampling_rate,
        exp_start_time) ->
  as_number start_time = Ok x -> as_number sampling_rate = Ok y -> y == 0 ->
  call_file filename = Raise ValueError \/ call_file filename = Raise OverflowError.
Proof.
  intros Eo Et Er Hb Em Ex Ey Hy.
  destruct (call_read_zero_rate _ _ _ _ _ _ _ _ _ _ _ Em Ex Ey Hy) as [E|E];
    [left|right]; unfold call_file, call_file_body; rewrite Eo; cbn; rewrite Et; cbn;
    rewrite Er, (call_reads_Raise _ _ _ _ _ _ _ Hb E); done.
Qed.

End MoreScriptFacts.

(** ** Paths and input files *)

Section PathFacts.

Lemma chars_app (a b : string) :
  list_ascii_of_string (a +:+ b) = list_ascii_of_string a ++ list_ascii_of_string b.
Proof.
  induction a as [|x a IH]; [done|]. rewrite string_app_cons. cbn. by rewrite IH.
Qed.

Lemma occurs_app (c : ascii) (a b : string) :
  occurs c (a +:+ b) = occurs c a || occurs c b.
Proof. unfold occurs. by rewrite chars_app, existsb_app. Qed.

Lemma occurs_cons (c x : ascii) (s : string) :
  occurs c (String x s) = Ascii.eqb c x || occurs c s.
Proof. reflexivity. Qed.

Lemma after_last_cons (sep x : ascii) (s : string) :
  Str.after_last sep (String x s)
  = if occurs sep s then Str.after_last sep s
    else if Ascii.eqb x sep then s else String x s.
Proof. reflexivity. Qed.

Lemma split_first_cons (sep x : ascii) (s : string) :
  Str.split_first sep (String x s)
  = if Ascii.eqb x sep then "" else String x (Str.split_first sep s).
Proof. reflexivity. Qed.

Lemma after_last_absent (sep : ascii) (s : string) :
  occurs sep s = false -> Str.after_last sep s = s.
Proof.
  destruct s as [|x s]; [done|]. rewrite occurs_cons, after_last_cons. intros E.
  apply orb_false_iff in E. destruct E as [Ex Es].
  rewrite Es. rewrite Ascii.eqb_sym in Ex. by rewrite Ex.
Qed.

Lemma after_last_app (sep : ascii) (a b : string) :
  occurs sep b = false -> Str.after_last sep (a +:+ String sep b) = b.
Proof.
  intros Eb. induction a as [|x a IH].
  - change ("" +:+ String sep b) with (String sep b).
    by rewrite after_last_cons, Eb, Ascii.eqb_refl.
  - rewrite string_app_cons, after_last_cons.
    by rewrite occurs_app, occurs_cons, Ascii.eqb_refl, orb_true_r.
Qed.

Lemma occurs_after_last (sep : ascii) (s : string) :
  occurs sep (Str.after_last sep s) = false.
Proof.
  induction s as [|x s IH]; [done|]. rewrite after_last_cons.
  destruct (occurs sep s) eqn:Es; [done|].
  destruct (Ascii.eqb x sep) eqn:Ex; [done|].
  by rewrite occurs_cons, Es, Ascii.eqb_sym, Ex.
Qed.

Lemma occurs_split_first (sep : ascii) (s : string) :
  occurs sep (Str.split_first sep s) = false.
Proof.
  induction s as [|x s IH]; [done|]. rewrite split_first_cons.
  destruct (Ascii.eqb x sep) eqn:Ex; [done|].
  by rewrite occurs_cons, IH, Ascii.eqb_sym, Ex.
Qed.

Lemma occurs_split_first_other (c sep : ascii) (s : string) :
  occurs c s = false -> occurs c (Str.split_first sep s) = false.
Proof.
  induction s as [|x s IH]; [done|]. rewrite occurs_cons, split_first_cons. intros E.
  apply orb_false_iff in E. destruct E as [Ex Es].
  destruct (Ascii.eqb x sep); [done|]. by rewrite occurs_cons, Ex, IH.
Qed.

Lemma startswith_absent (c : ascii) (s : string) :
  occurs c s = false -> Str.startswith c s = false.
Proof.
  destruct s as [|x s]; [done|]. rewrite occurs_cons. intros E.
  apply orb_false_iff in E. cbn. rewrite Ascii.eqb_sym. tauto.
Qed.

Lemma endswith_inv (c : ascii) (s : string) :
  Str.endswith c s = true -> exists a, s = a +:+ String c "".
Proof.
  induction s as [|x s IH]; [done|]. destruct s as [|y s].
  - cbn. intros E. apply Ascii.eqb_eq in E. subst x. by exists "".
  - intros E. destruct (IH E) as [a Ea]. exists (String x a). by rewrite Ea.
Qed.

(** The last component of a path joined from a directory and a name. *)
Lemma split_join (d name : string) :
  occurs PosixPath.slash name = false ->
  snd (PosixPath.split (PosixPath.join d name)) = name.
Proof.
  intros En. unfold PosixPath.split, PosixPath.join. cbn [snd].
  rewrite (startswith_absent _ _ En).
  destruct (String.eqb d "") eqn:Ed.
  - apply String.eqb_eq in Ed. subst d. by apply after_last_absent.
  - cbn [orb]. destruct (Str.endswith PosixPath.slash d) eqn:Ee.
    + destruct (endswith_inv _ _ Ee) as [a ->].
      rewrite string_app_assoc. by apply after_last_app.
    + by apply after_last_app.
Qed.

(** X7. The output file of an input file is named by the part of the input
    file's last path component before its first dot: that stem holds no dot
    and no slash, so the output path is the output directory, a slash unless
    the directory is empty or ends in one, the stem, a dot and the format;
    its last component is stem.format, a file directly in the output
    directory whatever the input path was. *)
Theorem output_file_is_in_the_output_directory (out_dir format fn : string) :
  occurs PosixPath.slash format = false ->
  let stem := Str.split_first "." (snd (PosixPath.split fn)) in
  occurs "/" stem = false /\ occurs "." stem = false
  /\ output_path out_dir format fn
     = out_dir
       +:+ (if String.eqb out_dir "" || Str.endswith "/" out_dir then "" else "/")
       +:+ stem +:+ "." +:+ format
  /\ snd (PosixPath.split (output_path out_dir format fn)) = stem +:+ "." +:+ format.
Proof.
  intros Ef stem.
  assert (Hs : occurs "/" stem = false).
  { apply occurs_split_first_other. apply occurs_after_last. }
  assert (Hd : occurs "." stem = false) by apply occurs_split_first.
  assert (Hn : occurs PosixPath.slash (stem +:+ "." +:+ format) = false).
  { rewrite !occurs_app. change PosixPath.slash with "/"%char in *. by rewrite Hs, Ef. }
  split; [done|]. split; [done|]. split.
  - unfold output_path. fold stem. unfold PosixPath.join.
    rewrite (startswith_absent _ _ Hn). change PosixPath.slash with "/"%char.
    by destruct (String.eqb out_dir "" || Str.endswith "/" out_dir).
  - unfold output_path. fold stem. by apply split_join.
Qed.

(** X8. A file found by listing a directory (line 94) is named after its
    directory entry alone: joining the directory and the entry and splitting
    the path again gives the entry back, so its output file is the one the
    bare entry would get, and entries of the same name in two directories
    share one output file. *)
Theorem listed_file_is_named_after_its_entry
    (out_dir format directory_name entry : string) :
  occurs PosixPath.slash entry = false ->
  snd (PosixPath.split (PosixPath.join directory_name entry)) = entry
  /\ output_path out_dir format (PosixPath.join directory_name entry)
     = PosixPath.join out_dir (Str.split_first "." entry +:+ "." +:+ format)
  /\ forall other,
       output_path out_dir format (PosixPath.join other entry)
       = output_path out_dir format (PosixPath.join directory_name entry).
Proof.
  intros He. split; [by apply split_join|]. split.
  - unfold output_path. by rewrite split_join.
  - intros other. unfold output_path. by rewrite !split_join.
Qed.

Lemma list_directories_Ok listdir directory listing files :
  Forall2 (fun d names => listdir d = Ok names) directory listing ->
  list_directories listdir directory files
  = Ok (files ++ concat (zip_with (fun d names => map (PosixPath.join d) names)
                                  directory listing)).
Proof.
  intros Hall. revert files. induction Hall as [|d names ds ls Hd _ IH]; intros files.
  - cbn. by rewrite app_nil_r.
  - cbn. rewrite Hd. cbn. rewrite IH. by rewrite <- app_assoc.
Qed.

Lemma list_directories_Raise listdir before d after files e :
  Forall (fun d => is_Ok (listdir d) = true) before ->
  listdir d = Raise e ->
  list_directories listdir (before ++ d :: after) files = Raise e.
Proof.
  intros Hall Ed. revert files. induction Hall as [|x xs Hx _ IH]; intros files; cbn.
  - by rewrite Ed.
  - destruct (listdir x) as [names|]; [|done]. cbn. apply IH.
Qed.

(** X9. The input files are the files given with [--reads], in the order
    given, followed by the entries of each directory given with
    [--directory], directory by directory in the order given and entry by
    entry in the order listed, each entry joined to its directory.  A
    directory that cannot be listed raises, and the run ends before any file
    is processed. *)
Theorem input_files_in_order
    (listdir : string -> result (list string)) (reads : option (list string))
    (directory : list string) :
  (forall listing,
      Forall2 (fun d names => listdir d = Ok names) directory listing ->
      input_files listdir reads (Some directory)
      = Ok (default [] reads
            ++ concat (zip_with (fun d names => map (PosixPath.join d) names)
                                directory listing)))
  /\ (forall before d after e,
        directory = before ++ d :: after ->
        Forall (fun d => is_Ok (listdir d) = true) before ->
        listdir d = Raise e ->
        input_files listdir reads (Some directory) = Raise e)
  /\ input_files listdir reads None = Ok (default [] reads).
Proof.
  assert (Hr : match reads with Some ((_ :: _) as l) => l | _ => [] end = default [] reads).
  { destruct reads as [[|x l]|]; reflexivity. }
  split; [|split].
  - intros listing Hall. unfold input_files. rewrite Hr.
    destruct directory as [|d ds].
    + inversion Hall. cbn. by rewrite app_nil_r.
    + by apply list_directories_Ok.
  - intros before d after e -> Hb Ed. unfold input_files.
    destruct (before ++ d :: after) as [|d0 ds] eqn:E0; [by destruct before|].
    rewrite <- E0. by apply list_directories_Raise.
  - unfold input_files. by rewrite Hr.
Qed.

End PathFacts.

(** ** Further properties of the time arithmetic *)

Module MoreDatetimeFacts.
Import Datetime DatetimeFacts.

Ltac month_cases m :=
  let H := fresh "Hcases" in
  assert (H : m = 1 \/ m = 2 \/ m = 3 \/ m = 4 \/ m = 5 \/ m = 6 \/ m = 7
              \/ m = 8 \/ m = 9 \/ m = 10 \/ m = 11 \/ m = 12) by lia;
  destruct_or!; subst m.

Lemma days_before_year_mono (a b : Z) :
  a <= b -> _days_before_year a <= _days_before_year b.
Proof. intros Hab. unfold _days_before_year. Z.div_mod_to_equations. lia. Qed.

Lemma days_before_year_succ (y : Z) :
  _days_before_year (y + 1)
  = _days_before_year y + 365 + (if _is_leap y then 1 else 0).
Proof.
  unfold _days_before_year, _is_leap.
  replace (y + 1 - 1) with y by lia.
  split_eqb; cbn; Z.div_mod_to_equations; lia.
Qed.

Lemma day_of_year_bounds (y m d : Z) :
  1 <= m <= 12 -> 1 <= d <= _days_in_month y m ->
  1 <= _days_before_month y m + d <= 365 + (if _is_leap y then 1 else 0).
Proof.
  intros Hm Hd. unfold _days_before_month, _days_in_month in *.
  month_cases m; destruct (_is_leap y); cbn in *; lia.
Qed.

Lemma day_of_year_inj (y m d m' d' : Z) :
  1 <= m <= 12 -> 1 <= d <= _days_in_month y m ->
  1 <= m' <= 12 -> 1 <= d' <= _days_in_month y m' ->
  _days_before_month y m + d = _days_before_month y m' + d' ->
  m = m' /\ d = d'.
Proof.
  intros Hm Hd Hm' Hd'. unfold _days_before_month, _days_in_month in *.
  month_cases m; month_cases m'; destruct (_is_leap y); cbn in *; lia.
Qed.

(** Two dates of the calendar on the same day are the same date. *)
Lemma ymd2ord_inj (y m d y' m' d' : Z) :
  1 <= y -> 1 <= m <= 12 -> 1 <= d <= _days_in_month y m ->
  1 <= y' -> 1 <= m' <= 12 -> 1 <= d' <= _days_in_month y' m' ->
  _ymd2ord y m d = _ymd2ord y' m' d' ->
  y = y' /\ m = m' /\ d = d'.
Proof.
  intros Hy Hm Hd Hy' Hm' Hd' E. unfold _ymd2ord in E.
  pose proof (day_of_year_bounds y m d Hm Hd) as Hb.
  pose proof (day_of_year_bounds y' m' d' Hm' Hd') as Hb'.
  assert (y = y') as <-.
  { destruct (Z.lt_trichotomy y y') as [Hlt | [Heq | Hgt]]; [|done|].
    - pose proof (days_before_year_mono (y + 1) y' ltac:(lia)) as Hmono.
      rewrite days_before_year_succ in Hmono. lia.
    - pose proof (days_before_year_mono (y' + 1) y ltac:(lia)) as Hmono.
      rewrite days_before_year_succ in Hmono. lia. }
  split; [done|]. apply (day_of_year_inj y); try done. lia.
Qed.

Lemma ymd2ord_bounds (y m d : Z) :
  1 <= y <= 9999 -> 1 <= m <= 12 -> 1 <= d <= _days_in_month y m ->
  1 <= _ymd2ord y m d <= _MAXORDINAL.
Proof.
  intros Hy Hm Hd. unfold _ymd2ord.
  pose proof (day_of_year_bounds y m d Hm Hd) as Hb.
  pose proof (days_before_year_mono 1 y ltac:(lia)) as H1.
  pose proof (days_before_year_mono (y + 1) 10000 ltac:(lia)) as H2.
  rewrite days_before_year_succ in H2.
  change (_days_before_year 1) with 0 in H1.
  change (_days_before_year 10000) with 3652059 in H2.
  unfold _MAXORDINAL. lia.
Qed.

(** [_ord2ymd] and [_ymd2ord] are inverse to each other on the calendar. *)
Lemma ymd2ord_ord2ymd (y m d : Z) :
  1 <= y <= 9999 -> 1 <= m <= 12 -> 1 <= d <= _days_in_month y m ->
  _ord2ymd (_ymd2ord y m d) = (y, m, d).
Proof.
  intros Hy Hm Hd. pose proof (ymd2ord_bounds y m d Hy Hm Hd) as Hb.
  destruct (_ord2ymd (_ymd2ord y m d)) as [[y' m'] d'] eqn:E.
  apply ord2ymd_ymd2ord in E; [|done]. destruct E as (E & Hy' & Hm' & Hd').
  apply ymd2ord_inj in E; try done; try lia. by destruct E as (-> & -> & ->).
Qed.

(** [datetime + timedelta] is addition on the scale of microseconds, within
    the calendar. *)
Lemma add_microseconds (b : datetime) (td : timedelta) :
  add b td
  = if in_calendar (to_microseconds b + total_microseconds td)
    then Ok (of_microseconds (to_microseconds b + total_microseconds td))
    else Raise OverflowError.
Proof.
  unfold add, in_calendar, of_microseconds. cbv zeta.
  assert (Etot : total_microseconds
                   (mkTimedelta (toordinal b)
                      (hour b * 3600 + minute b * 60 + second b) (microsecond b))
                 = to_microseconds b).
  { unfold total_microseconds, to_microseconds, to_seconds. cbn. lia. }
  rewrite Etot. generalize (to_microseconds b + total_microseconds td). intros t.
  unfold timedelta_of_microseconds. cbn [days seconds microseconds].
  unfold _MAXORDINAL.
  assert (E : (0 <? t / 1000000 / 86400) && (t / 1000000 / 86400 <=? 3652059)
              = (86400 <=? t / 1000000) && (t / 1000000 <? (3652059 + 1) * 86400)).
  { generalize (t / 1000000). intros s.
    destruct (Z.ltb_spec 0 (s / 86400)), (Z.leb_spec (s / 86400) 3652059),
             (Z.leb_spec 86400 s), (Z.ltb_spec s ((3652059 + 1) * 86400));
      try reflexivity; exfalso; Z.div_mod_to_equations; lia. }
  rewrite E. clear E.
  destruct ((86400 <=? t / 1000000) && (t / 1000000 <? (3652059 + 1) * 86400));
    [|reflexivity].
  by destruct (_ord2ymd (t / 1000000 / 86400)) as [[y m] d].
Qed.

Lemma to_of_microseconds (t : Z) :
  in_calendar t = true ->
  check_fields (of_microseconds t) = true
  /\ to_microseconds (of_microseconds t) = t.
Proof.
  unfold in_calendar, _MAXORDINAL. rewrite andb_true_iff, Z.leb_le, Z.ltb_lt. intros Ht.
  unfold of_microseconds. cbv zeta.
  destruct (_ord2ymd (t / 1000000 / 86400)) as [[y m] d] eqn:Eo.
  apply ord2ymd_ymd2ord in Eo; [|unfold _MAXORDINAL; Z.div_mod_to_equations; lia].
  destruct Eo as (Eo & Hy & Hm & Hd). split.
  - unfold check_fields. cbn. rewrite !andb_true_iff, !Z.leb_le.
    repeat split; try lia; Z.div_mod_to_equations; lia.
  - unfold to_microseconds, to_seconds, toordinal. cbn. rewrite Eo.
    Z.div_mod_to_equations; lia.
Qed.

Lemma of_to_microseconds (d : datetime) :
  check_fields d = true -> of_microseconds (to_microseconds d) = d.
Proof.
  intros Hc. apply check_fields_bounds in Hc.
  destruct Hc as (Hy & Hm & Hd & Hh & Hmi & Hs & Hus).
  destruct d as [y m dd h mi s us]. cbn in *.
  unfold of_microseconds, to_microseconds, to_seconds, toordinal. cbn.
  set (o := _ymd2ord y m dd).
  replace (((o * 86400 + h * 3600 + mi * 60 + s) * 1000000 + us) / 1000000)
    with (o * 86400 + h * 3600 + mi * 60 + s) by (Z.div_mod_to_equations; lia).
  replace ((o * 86400 + h * 3600 + mi * 60 + s) / 86400) with o
    by (Z.div_mod_to_equations; lia).
  subst o. rewrite ymd2ord_ord2ymd by done. f_equal; Z.div_mod_to_equations; lia.
Qed.

Lemma check_fields_in_calendar (d : datetime) :
  check_fields d = true -> in_calendar (to_microseconds d) = true.
Proof.
  intros Hc. pose proof (check_fields_bounds d Hc) as (Hy & Hm & Hd & Hh & Hmi & Hs & Hus).
  pose proof (ymd2ord_bounds _ _ _ Hy Hm Hd) as Ho. unfold _MAXORDINAL in Ho.
  unfold in_calendar, to_microseconds, to_seconds, toordinal, _MAXORDINAL.
  rewrite andb_true_iff, Z.leb_le, Z.ltb_lt.
  set (o := _ymd2ord (year d) (month d) (day d)) in *.
  Z.div_mod_to_equations. lia.
Qed.

(** *** Printing and parsing a timestamp *)

Lemma span_app (p : Z -> bool) (tok : list Z) (c : Z) (rest : list Z) :
  forallb p tok = true -> p c = false -> span p (tok ++ c :: rest) = (tok, c :: rest).
Proof.
  intros Ht Hc. induction tok as [|x tok IH]; cbn.
  - by rewrite Hc.
  - cbn in Ht. apply andb_true_iff in Ht. destruct Ht as [Hx Ht].
    by rewrite Hx, IH.
Qed.

Lemma field_app (f : list Z -> option Z) (tok : list Z) (c : Z)
    (rest : list Z) (v : Z) :
  forallb in_field tok = true -> in_field c = false -> f tok = Some v ->
  field f (tok ++ c :: rest) = Some (v, c :: rest).
Proof. intros Ht Hc Hf. unfold field. rewrite span_app by done. by rewrite Hf. Qed.

(** ASCII text has one code point a byte. *)
Lemma code_points_app (tok rest : list ascii) :
  forallb (Str.byte_in 0 127) tok = true ->
  Str.code_points (tok ++ rest) = map Str.code tok ++ Str.code_points rest.
Proof.
  intros Ht. induction tok as [|x tok IH]; [done|].
  change (Str.byte_in 0 127 x && forallb (Str.byte_in 0 127) tok = true) in Ht.
  apply andb_true_iff in Ht. destruct Ht as [Hx Ht].
  cbn [app map Str.code_points]. by rewrite Hx, IH.
Qed.

Lemma reads_back_spec f pr lo len n :
  all_from (Z.to_nat len) lo (reads_back f pr) = true -> lo <= n < lo + len ->
  forallb (Str.byte_in 0 127) (list_ascii_of_string (pr n)) = true
  /\ forallb in_field (map Str.code (list_ascii_of_string (pr n))) = true
  /\ f (map Str.code (list_ascii_of_string (pr n))) = Some n.
Proof.
  intros Hall Hn.
  assert (E : reads_back f pr n = true).
  { apply (all_from_spec _ _ _ _ Hall). rewrite Z2Nat.id; lia. }
  unfold reads_back in E. cbv zeta in E.
  apply andb_true_iff in E. destruct E as [E E3].
  apply andb_true_iff in E. destruct E as [E1 E2].
  split; [done|]. split; [done|].
  destruct (f _) as [v|]; [|done]. apply Z.eqb_eq in E3. by subst.
Qed.

Lemma year_reads_back n :
  1000 <= n <= 9999 ->
  forallb (Str.byte_in 0 127) (list_ascii_of_string (Str.of_Z n)) = true
  /\ forallb in_field (map Str.code (list_ascii_of_string (Str.of_Z n))) = true
  /\ field_Y (map Str.code (list_ascii_of_string (Str.of_Z n))) = Some n.
Proof.
  intros Hn. apply (reads_back_spec field_Y Str.of_Z 1000 9000); [by vm_compute|lia].
Qed.

Lemma month_reads_back n :
  1 <= n <= 12 ->
  forallb (Str.byte_in 0 127) (list_ascii_of_string (Str.pad2 n)) = true
  /\ forallb in_field (map Str.code (list_ascii_of_string (Str.pad2 n))) = true
  /\ field_m (map Str.code (list_ascii_of_string (Str.pad2 n))) = Some n.
Proof.
  intros Hn. apply (reads_back_spec field_m Str.pad2 1 12); [by vm_compute|lia].
Qed.

Lemma day_reads_back n :
  1 <= n <= 31 ->
  forallb (Str.byte_in 0 127) (list_ascii_of_string (Str.pad2 n)) = true
  /\ forallb in_field (map Str.code (list_ascii_of_string (Str.pad2 n))) = true
  /\ field_d (map Str.code (list_ascii_of_string (Str.pad2 n))) = Some n.
Proof.
  intros Hn. apply (reads_back_spec field_d Str.pad2 1 31); [by vm_compute|lia].
Qed.

Lemma hour_reads_back n :
  0 <= n <= 23 ->
  forallb (Str.byte_in 0 127) (list_ascii_of_string (Str.pad2 n)) = true
  /\ forallb in_field (map Str.code (list_ascii_of_string (Str.pad2 n))) = true
  /\ field_H (map Str.code (list_ascii_of_string (Str.pad2 n))) = Some n.
Proof.
  intros Hn. apply (reads_back_spec field_H Str.pad2 0 24); [by vm_compute|lia].
Qed.

Lemma minute_reads_back n :
  0 <= n <= 59 ->
  forallb (Str.byte_in 0 127) (list_ascii_of_string (Str.pad2 n)) = true
  /\ forallb in_field (map Str.code (list_ascii_of_string (Str.pad2 n))) = true
  /\ field_M (map Str.code (list_ascii_of_string (Str.pad2 n))) = Some n.
Proof.
  intros Hn. apply (reads_back_spec field_M Str.pad2 0 60); [by vm_compute|lia].
Qed.

Lemma second_reads_back n :
  0 <= n <= 59 ->
  forallb (Str.byte_in 0 127) (list_ascii_of_string (Str.pad2 n)) = true
  /\ forallb in_field (map Str.code (list_ascii_of_string (Str.pad2 n))) = true
  /\ field_S (map Str.code (list_ascii_of_string (Str.pad2 n))) = Some n.
Proof.
  intros Hn. apply (reads_back_spec field_S Str.pad2 0 60); [by vm_compute|lia].
Qed.

Lemma days_in_month_le_31 (y m : Z) : 1 <= m <= 12 -> _days_in_month y m <= 31.
Proof.
  intros Hm. unfold _days_in_month. destruct (_ && _); [lia|].
  month_cases m; cbn; lia.
Qed.

Lemma code_points_field (tok : list ascii) (c : ascii) (rest : list ascii) :
  forallb (Str.byte_in 0 127) tok = true -> Str.byte_in 0 127 c = true ->
  Str.code_points (tok ++ c :: rest)
  = map Str.code tok ++ Str.code c :: Str.code_points rest.
Proof.
  intros Ht Hc. rewrite code_points_app by done.
  cbn [Str.code_points]. by rewrite Hc.
Qed.

Lemma strptime_strftime (d : datetime) :
  check_fields d = true -> 1000 <= year d -> microsecond d = 0 ->
  strptime (strftime d) = Ok d.
Proof.
  intros Hc Hy Hus. pose proof (check_fields_bounds d Hc) as (Hy' & Hm & Hd & Hh & Hmi & Hs & _).
  pose proof (days_in_month_le_31 (year d) (month d) Hm) as H31.
  destruct (year_reads_back (year d)) as (Y0 & Y1 & Y2); [lia|].
  destruct (month_reads_back (month d)) as (M0 & M1 & M2); [lia|].
  destruct (day_reads_back (day d)) as (D0 & D1 & D2); [lia|].
  destruct (hour_reads_back (hour d)) as (H0 & H1 & H2); [lia|].
  destruct (minute_reads_back (minute d)) as (Mi0 & Mi1 & Mi2); [lia|].
  destruct (second_reads_back (second d)) as (S0 & S1 & S2); [lia|].
  unfold strptime, strftime.
  rewrite !chars_app. cbn [list_ascii_of_string app].
  rewrite (code_points_field _ "-"%char _ Y0 eq_refl), (code_points_field _ "-"%char _ M0 eq_refl),
    (code_points_field _ "T"%char _ D0 eq_refl), (code_points_field _ ":"%char _ H0 eq_refl),
    (code_points_field _ ":"%char _ Mi0 eq_refl), (code_points_field _ "Z"%char _ S0 eq_refl).
  cbn [Str.code_points].
  unfold match_format.
  rewrite (field_app _ _ (Str.code "-") _ _ Y1 eq_refl Y2). cbn [mbind option_bind literal].
  rewrite Z.eqb_refl. cbn [orb mbind option_bind].
  rewrite (field_app _ _ (Str.code "-") _ _ M1 eq_refl M2). cbn [mbind option_bind literal].
  rewrite Z.eqb_refl. cbn [orb mbind option_bind].
  rewrite (field_app _ _ (Str.code "T") _ _ D1 eq_refl D2). cbn [mbind option_bind literal].
  rewrite Z.eqb_refl. cbn [orb mbind option_bind].
  rewrite (field_app _ _ (Str.code ":") _ _ H1 eq_refl H2). cbn [mbind option_bind literal].
  rewrite Z.eqb_refl. cbn [orb mbind option_bind].
  rewrite (field_app _ _ (Str.code ":") _ _ Mi1 eq_refl Mi2). cbn [mbind option_bind literal].
  rewrite Z.eqb_refl. cbn [orb mbind option_bind].
  rewrite (field_app _ _ (Str.code "Z") _ _ S1 eq_refl S2). cbn [mbind option_bind literal].
  rewrite Z.eqb_refl. cbn [orb mbind option_bind].
  destruct d as [y m dd h mi s us]. cbn in *. subst us. by rewrite Hc.
Qed.

(** *** [add_time_seconds] *)

Lemma round_half_even_bounds (x : Q) :
  Qfloor x <= round_half_even x <= Qfloor x + 1.
Proof.
  unfold round_half_even. destruct (Qcompare _ _); [destruct (Z.even _)|..]; lia.
Qed.

Lemma round_half_even_mono (x y : Q) :
  (x <= y)%Q -> round_half_even x <= round_half_even y.
Proof.
  intros Hxy. pose proof (Qfloor_resp_le x y Hxy) as Hf.
  pose proof (round_half_even_bounds x) as Hx.
  pose proof (round_half_even_bounds y) as Hy.
  destruct (Z.eq_dec (Qfloor x) (Qfloor y)) as [E|E]; [|lia].
  clear Hx Hy. unfold round_half_even. rewrite <- E.
  destruct (Qcompare_spec (x - inject_Z (Qfloor x)) (1 # 2)) as [Ex|Ex|Ex];
    destruct (Qcompare_spec (y - inject_Z (Qfloor x)) (1 # 2)) as [Ey|Ey|Ey];
    try destruct (Z.even (Qfloor x)); try lia; exfalso; lra.
Qed.

Lemma round_half_even_whole (n : Z) :
  round_half_even (inject_Z n * inject_Z 1000000) = n * 1000000.
Proof.
  unfold round_half_even.
  assert (Ef : Qfloor (inject_Z n * inject_Z 1000000) = n * 1000000).
  { rewrite <- inject_Z_mult. apply Qfloor_Z. }
  rewrite Ef.
  assert (El : (inject_Z n * inject_Z 1000000 - inject_Z (n * 1000000) < 1 # 2)%Q).
  { rewrite inject_Z_mult. lra. }
  destruct (Qcompare_spec (inject_Z n * inject_Z 1000000 - inject_Z (n * 1000000))
                          (1 # 2)) as [E|E|E]; [exfalso; lra | done | exfalso; lra].
Qed.

(** What [add_time_seconds] returns for a start time that parses and a
    finite delta. *)
Lemma add_time_seconds_outcome (s : string) (b : datetime) (q : Q) :
  strptime s = Ok b ->
  add_time_seconds s (Finite q)
  = let t := to_microseconds b + round_half_even (q * inject_Z 1000000) in
    if in_calendar t then Ok (strftime (of_microseconds t)) else Raise OverflowError.
Proof.
  intros Hs. destruct (strptime_Ok s b Hs) as [Hc Hus].
  pose proof (check_fields_in_calendar b Hc) as Hb.
  unfold add_time_seconds, mbind, result_bind, rbind. rewrite Hs. cbv zeta.
  unfold timedelta_seconds.
  set (us := round_half_even (q * inject_Z 1000000)).
  destruct (Z.leb_spec (Z.abs (days (timedelta_of_microseconds us))) 999999999) as [Hd|Hd].
  - rewrite add_microseconds, total_microseconds_normalised.
    destruct (in_calendar (to_microseconds b + us)); reflexivity.
  - assert (E : in_calendar (to_microseconds b + us) = false); [|by rewrite E].
    revert Hb Hd. unfold in_calendar, timedelta_of_microseconds, _MAXORDINAL.
    cbn [days]. rewrite andb_true_iff, Z.leb_le, Z.ltb_lt.
    generalize (to_microseconds b). intros t Ht Hd.
    destruct (Z.leb_spec 86400 ((t + us) / 1000000)),
             (Z.ltb_spec ((t + us) / 1000000) ((3652059 + 1) * 86400));
      try reflexivity.
    exfalso.
    assert (-999999999 <= us / 1000000 / 86400 <= 999999999)
      by (Z.div_mod_to_equations; lia).
    lia.
Qed.

Lemma strftime_ignores_microseconds (d : datetime) :
  strftime d
  = strftime (mkDatetime (year d) (month d) (day d) (hour d) (minute d) (second d) 0).
Proof. reflexivity. Qed.

Lemma short_year_length (y : Z) :
  1 <= y <= 999 -> (String.length (Str.of_Z y) < 4)%nat.
Proof.
  intros Hy.
  apply Nat.ltb_lt,
    (all_from_spec (Z.to_nat 999) 1 (fun n => String.length (Str.of_Z n) <? 4)%nat);
    [by vm_compute | rewrite Z2Nat.id; lia].
Qed.

Lemma four_digit_year (d : datetime) :
  check_fields d = true -> String.length (strftime d) = 20%nat -> 1000 <= year d.
Proof.
  intros Hc Hl. pose proof (check_fields_bounds d Hc) as (Hy & Hm & Hd & Hh & Hmi & Hs & _).
  pose proof (days_in_month_le_31 (year d) (month d) Hm) as H31.
  unfold strftime in Hl. rewrite !string_length_app, !pad2_length in Hl by lia.
  cbn in Hl. destruct (Z.le_gt_cases 1000 (year d)) as [|Hlt]; [done|].
  pose proof (short_year_length (year d) ltac:(lia)). lia.
Qed.

(** A timestamp that [add_time_seconds] has printed with a four-digit year
    parses to the date it was printed from, the microseconds dropped. *)
Lemma printed_timestamp_parses (t : Z) :
  in_calendar t = true ->
  String.length (strftime (of_microseconds t)) = 20%nat ->
  exists d,
    strptime (strftime (of_microseconds t)) = Ok d
    /\ strftime d = strftime (of_microseconds t)
    /\ to_microseconds d = t / 1000000 * 1000000.
Proof.
  intros Ht Hl. destruct (to_of_microseconds t Ht) as [Hc Eto].
  pose proof (four_digit_year _ Hc Hl) as Hy.
  set (d := of_microseconds t) in *.
  exists (mkDatetime (year d) (month d) (day d) (hour d) (minute d) (second d) 0).
  split; [|split].
  - rewrite strftime_ignores_microseconds. apply strptime_strftime; try done.
    revert Hc. unfold check_fields. cbn. rewrite !andb_true_iff, !Z.leb_le. lia.
  - reflexivity.
  - revert Eto. unfold to_microseconds, to_seconds, toordinal. cbn.
    pose proof (check_fields_bounds d Hc) as (_ & _ & _ & _ & _ & _ & Hus).
    intros Eto. Z.div_mod_to_equations. lia.
Qed.

End MoreDatetimeFacts.

Section MoreStartTime.
Import Datetime DatetimeFacts MoreDatetimeFacts.

Lemma add_time_seconds_Ok_inv (s : string) (delta : pyfloat) (r : string) :
  add_time_seconds s delta = Ok r ->
  exists b q,
    strptime s = Ok b /\ delta = Finite q
    /\ in_calendar (to_microseconds b + round_half_even (q * inject_Z 1000000)) = true
    /\ r = strftime (of_microseconds
                       (to_microseconds b + round_half_even (q * inject_Z 1000000))).
Proof.
  intros E. destruct (strptime s) as [b|] eqn:Hs; cycle 1.
  { unfold add_time_seconds, mbind, result_bind, rbind in E. by rewrite Hs in E. }
  destruct delta as [q| |].
  - rewrite (add_time_seconds_outcome s b q Hs) in E. cbv zeta in E.
    destruct (in_calendar _) eqn:Ec; [|done]. exists b, q. by inversion E.
  - unfold add_time_seconds, mbind, result_bind, rbind in E. by rewrite Hs in E.
  - unfold add_time_seconds, mbind, result_bind, rbind in E. by rewrite Hs in E.
Qed.

(** X10. A start time that [add_time_seconds] returns with a four-digit year
    (twenty characters) is read back by [add_time_seconds] itself: with a
    delta of zero the same string is returned. *)
Theorem start_time_is_read_back (s : string) (delta : pyfloat) (r : string) :
  add_time_seconds s delta = Ok r ->
  String.length r = 20%nat ->
  add_time_seconds r (Finite 0) = Ok r.
Proof.
  intros E Hl. destruct (add_time_seconds_Ok_inv s delta r E) as (b & q & Hs & -> & Hc & ->).
  destruct (printed_timestamp_parses _ Hc Hl) as (d & Hd & Hf & _).
  rewrite (add_time_seconds_outcome _ d 0 Hd). cbv zeta.
  change (round_half_even (0 * inject_Z 1000000)) with 0. rewrite Z.add_0_r.
  destruct (strptime_Ok _ _ Hd) as [Hcd _].
  by rewrite (check_fields_in_calendar d Hcd), of_to_microseconds, Hf.
Qed.

(** X11. Whole seconds add up: adding [n] seconds and then, to the string
    returned, [m] seconds gives what adding [n + m] seconds at once gives,
    provided the string in between has a four-digit year. *)
Theorem whole_seconds_add_up (s : string) (n m : Z) (r : string) :
  add_time_seconds s (Finite (inject_Z n)) = Ok r ->
  String.length r = 20%nat ->
  add_time_seconds r (Finite (inject_Z m))
  = add_time_seconds s (Finite (inject_Z (n + m))).
Proof.
  intros E Hl.
  destruct (add_time_seconds_Ok_inv s _ r E) as (b & q & Hs & [= <-] & Hc & ->).
  rewrite round_half_even_whole in *.
  destruct (printed_timestamp_parses _ Hc Hl) as (d & Hd & _ & Ed).
  destruct (strptime_Ok _ _ Hs) as [_ Hus].
  rewrite (add_time_seconds_outcome _ d _ Hd), (add_time_seconds_outcome s b _ Hs).
  cbv zeta. rewrite !round_half_even_whole.
  assert (Et : to_microseconds d + m * 1000000
               = to_microseconds b + (n + m) * 1000000).
  { rewrite Ed. unfold to_microseconds. rewrite Hus.
    generalize (to_seconds b). intros sec. Z.div_mod_to_equations. lia. }
  by rewrite Et.
Qed.

(** X12. Start times are monotone in the delta: of two deltas added to the
    same start time, the smaller gives a time that is not later. *)
Theorem start_time_is_monotone (s : string) (q1 q2 : Q) (r1 r2 : string) :
  add_time_seconds s (Finite q1) = Ok r1 ->
  add_time_seconds s (Finite q2) = Ok r2 ->
  (q1 <= q2)%Q ->
  exists d1 d2,
    r1 = strftime d1 /\ r2 = strftime d2
    /\ check_fields d1 = true /\ check_fields d2 = true
    /\ to_seconds d1 <= to_seconds d2.
Proof.
  intros E1 E2 Hq.
  destruct (add_time_seconds_Ok_inv s _ r1 E1) as (b & q & Hs & [= <-] & Hc1 & ->).
  destruct (add_time_seconds_Ok_inv s _ r2 E2) as (b' & q' & Hs' & [= <-] & Hc2 & ->).
  assert (b' = b) as -> by congruence.
  assert (Hr : round_half_even (q1 * inject_Z 1000000)
               <= round_half_even (q2 * inject_Z 1000000)).
  { apply round_half_even_mono. apply Qmult_le_compat_r; [done|]. by vm_compute. }
  destruct (to_of_microseconds _ Hc1) as [Hv1 Et1].
  destruct (to_of_microseconds _ Hc2) as [Hv2 Et2].
  eexists _, _. repeat split; try done.
  pose proof (check_fields_bounds _ Hv1) as (_ & _ & _ & _ & _ & _ & Hu1).
  pose proof (check_fields_bounds _ Hv2) as (_ & _ & _ & _ & _ & _ & Hu2).
  revert Et1 Et2 Hu1 Hu2.
  generalize (of_microseconds (to_microseconds b + round_half_even (q1 * inject_Z 1000000))).
  generalize (of_microseconds (to_microseconds b + round_half_even (q2 * inject_Z 1000000))).
  intros d2 d1. unfold to_microseconds. lia.
Qed.

(** X13. [add_time_seconds] raises OverflowError for an infinite delta and
    for a sum that leaves the years 1 to 9999, and ValueError for a delta
    that is not a number, when the start time itself parses. *)
Theorem start_time_out_of_range (s : string) (b : datetime) :
  strptime s = Ok b ->
  add_time_seconds s Infinite = Raise OverflowError
  /\ add_time_seconds s NaN = Raise ValueError
  /\ forall q,
       in_calendar (to_microseconds b + round_half_even (q * inject_Z 1000000)) = false ->
       add_time_seconds s (Finite q) = Raise OverflowError.
Proof.
  intros Hs. split; [|split].
  - unfold add_time_seconds, mbind, result_bind, rbind. by rewrite Hs.
  - unfold add_time_seconds, mbind, result_bind, rbind. by rewrite Hs.
  - intros q Hc. rewrite (add_time_seconds_outcome s b q Hs). cbv zeta. by rewrite Hc.
Qed.

End MoreStartTime.

(** ** A constant signal *)

Section ConstantSignal.

Lemma same_float_eq (x y : B32.t) : same_float x y = true -> x = y.
Proof.
  destruct x, y; cbn; try done.
  - intros E. by apply Bool.eqb_prop in E as ->.
  - intros E. by apply Bool.eqb_prop in E as ->.
  - rewrite !andb_true_iff. intros [[E1 E2] E3].
    apply Bool.eqb_prop in E1. apply Pos.eqb_eq in E2. apply Z.eqb_eq in E3.
    by subst.
Qed.

Lemma map_replicate {A B} (f : A -> B) (n : nat) (x : A) :
  map f (replicate n x) = replicate n (f x).
Proof. induction n as [|n IH]; cbn; [done|by rewrite IH]. Qed.

Lemma nth_replicate {A} (i n : nat) (x d : A) :
  (i < n)%nat -> nth i (replicate n x) d = x.
Proof.
  revert i. induction n as [|n IH]; intros i Hi; [lia|].
  destruct i as [|i]; cbn; [done|]. apply IH. lia.
Qed.

Lemma sort_replicate (x : B32.t) (n : nat) :
  SFleb x x = true -> B32.sort (replicate n x) = replicate n x.
Proof.
  intros Hx. unfold B32.sort. induction n as [|n IH]; [done|].
  cbn [replicate foldr]. rewrite IH. destruct n as [|n]; [done|].
  cbn [replicate B32.insert_sorted]. by rewrite Hx.
Qed.

Lemma median_replicate (x : B32.t) (n : nat) :
  is_its_own_median x = true -> B32.median (replicate (S n) x) = x.
Proof.
  unfold is_its_own_median. rewrite !andb_true_iff, negb_true_iff.
  intros [[[Hn Hle] H1] H2]. apply same_float_eq in H1, H2.
  unfold B32.median.
  assert (En : existsb B32.is_nan (replicate (S n) x) = false).
  { generalize (S n). intros k. induction k as [|k IH]; [done|]. cbn. by rewrite Hn. }
  rewrite En, sort_replicate, length_replicate by done.
  cbn [Nat.eqb].
  assert (Hmid : (Nat.div (S n) 2 < S n)%nat) by (apply Nat.div_lt; lia).
  destruct (Nat.even (S n)).
  - rewrite !nth_replicate by lia. done.
  - rewrite nth_replicate by lia. done.
Qed.

(** X14. A constant signal has no scale: every sample is the median, the
    median absolute deviation is zero, and each sample comes out as 0/0,
    not a number.  Shown in binary32 for every sample value from -8192 to 8191
    and every length from one on. *)
Theorem constant_signal_has_no_scale (c : Z) (n : nat) :
  -8192 <= c <= 8191 ->
  rescale_signal (F := B32.t) (replicate (S n) c) = replicate (S n) S754_nan.
Proof.
  intros Hc.
  assert (Hs : constant_sample c = true).
  { apply (all_from_spec (Z.to_nat 16384) (-8192) constant_sample);
      [by vm_compute | rewrite Z2Nat.id; lia]. }
  unfold constant_sample in Hs. apply andb_true_iff in Hs. destruct Hs as [Hm Hz].
  apply same_float_eq in Hz.
  unfold rescale_signal, med_mad.
  cbn [of_int median fsub fabs fmul fdiv f_1_4826 binary32].
  rewrite !map_replicate, median_replicate by done.
  rewrite Hz, median_replicate by done.
  destruct (B32.sub (B32.of_Z c) (B32.of_Z c)) as [[]| | |]; try done.
Qed.

End ConstantSignal.

(** ** The further statements at the sample data *)

Section MoreSamples.
Import Sample MoreCalls.

Lemma out_is_a_directory (format fn : string) :
  fst (PosixPath.split (output_path "out" format fn)) = "out" ->
  fst (PosixPath.split (output_path "out" format fn)) ∈ dirs.
Proof. intros ->. by apply elem_of_singleton. Qed.

Lemma sequential_file_writes_its_records_witness :
  let path := output_path "out" "fasta" "in/a.fast5" in
  exists st',
    sequential_file decoder disk dirs (args 1 "fasta" false) 1 "in/a.fast5" initial
    = (Ok tt, st')
    /\ fout st' = Some (mkFileObject path true)
    /\ written st' !! path
       = Some (unlines (concat [[">r1"; "ACGT"]; [">r2"; "ACGT"]]))
    /\ (forall p, p <> path -> written st' !! p = written initial !! p).
Proof.
  apply (sequential_file_writes_its_records decoder disk dirs (args 1 "fasta" false) 1
           "in/a.fast5" initial [c1; c2] [[">r1"; "ACGT"]; [">r2"; "ACGT"]]).
  - apply out_is_a_directory. by vm_compute.
  - by vm_compute.
  - constructor; [by vm_compute|]. constructor; [by vm_compute|]. constructor.
Defined.

Lemma sequential_run_reports_every_result_witness :
  exists st',
    main decoder disk dirs (args 1 "fasta" false) ["in/b.fast5"; "in/a.fast5"] [] initial
    = (Ok tt, st')
    /\ done st' = Z.of_nat (length (concat [[c0]; [c1; c2]]))
    /\ stderr st' = stderr initial
                    ++ reports 0 (Z.of_nat (length ["in/b.fast5"; "in/a.fast5"]))
                               (concat [[c0]; [c1; c2]])
    /\ stdout st' = stdout initial
    /\ exists p, fout st' = Some (mkFileObject p true).
Proof.
  apply (sequential_run_reports_every_result decoder disk dirs (args 1 "fasta" false)
           ["in/b.fast5"; "in/a.fast5"] [] [[c0]; [c1; c2]] initial).
  - reflexivity.
  - discriminate.
  - constructor.
    { split; [apply out_is_a_directory; by vm_compute|].
      split; [by vm_compute|]. repeat constructor. }
    constructor; [|constructor].
    split; [apply out_is_a_directory; by vm_compute|].
    split; [by vm_compute|]. repeat constructor.
Defined.

Lemma sequential_run_stops_at_the_failing_file_witness :
  let body := sequential_file decoder disk dirs (args 1 "fasta" false) 3 in
  let st1 := snd (for_each ["in/a.fast5"] body initial) in
  let path := output_path "out" "fasta" "in/c.fast5" in
  for_each (["in/a.fast5"] ++ "in/c.fast5" :: ["in/b.fast5"]) body initial
  = (Raise KeyError,
     mkState (Some (mkFileObject path false)) (done st1)
             (<[path := ""]> (written st1)) (stderr st1) (stdout st1)).
Proof.
  apply (sequential_run_stops_at_the_failing_file decoder disk dirs
           (args 1 "fasta" false) 3 ["in/a.fast5"] ["in/b.fast5"] "in/c.fast5" initial).
  - by vm_compute.
  - apply out_is_a_directory. by vm_compute.
  - by vm_compute.
Defined.

Lemma same_stem_overwrites_witness :
  let path := output_path "out" "fasta" "more/a.fast5" in
  exists st',
    for_each ["in/a.fast5"; "more/a.fast5"]
             (sequential_file decoder MoreSample.disk dirs (args 1 "fasta" false) 2)
             initial
    = (Ok tt, st')
    /\ written st' !! path = Some (unlines (concat [[">r2"; "ACGT"]]))
    /\ stderr st' = stderr initial ++ reports (done initial) 2 ([c1] ++ [c2]).
Proof.
  apply (same_stem_overwrites decoder MoreSample.disk dirs (args 1 "fasta" false) 2
           "in/a.fast5" "more/a.fast5" initial [c1] [c2]
           [[">r1"; "ACGT"]] [[">r2"; "ACGT"]]).
  - reflexivity.
  - apply out_is_a_directory. by vm_compute.
  - by vm_compute.
  - by vm_compute.
  - constructor; [by vm_compute|]. constructor.
  - constructor; [by vm_compute|]. constructor.
Defined.

Lemma zero_sampling_rate_aborts_the_file_witness :
  call_file decoder MoreSample.disk "in/z.fast5" = Raise ValueError
  \/ call_file decoder MoreSample.disk "in/z.fast5" = Raise OverflowError.
Proof.
  apply (zero_sampling_rate_aborts_the_file decoder MoreSample.disk "in/z.fast5"
           (mkFile (Ok "multi-read") [r1; MoreSample.stalled; r2] None) "multi-read"
           [r1] [r2] MoreSample.stalled
           "r9" "run1" "12" "2021-01-01T00:00:00Z" (AInt 3) (AInt 4000) (AFloat 0)
           (inject_Z 4000) 0%Q).
  - by vm_compute.
  - reflexivity.
  - reflexivity.
  - repeat constructor.
  - by vm_compute.
  - reflexivity.
  - reflexivity.
  - reflexivity.
Defined.

Example zero_sampling_rate_at_the_sample :
  call_file decoder MoreSample.disk "in/z.fast5" = Raise OverflowError.
Proof. by vm_compute. Qed.

Lemma output_file_is_in_the_output_directory_witness :
  let stem := Str.split_first "." (snd (PosixPath.split "../in/a.b.fast5")) in
  occurs "/" stem = false /\ occurs "." stem = false
  /\ output_path "out" "fasta" "../in/a.b.fast5"
     = "out"
       +:+ (if String.eqb "out" "" || Str.endswith "/" "out" then "" else "/")
       +:+ stem +:+ "." +:+ "fasta"
  /\ snd (PosixPath.split (output_path "out" "fasta" "../in/a.b.fast5"))
     = stem +:+ "." +:+ "fasta".
Proof.
  apply (output_file_is_in_the_output_directory "out" "fasta" "../in/a.b.fast5").
  reflexivity.
Defined.

Example output_path_of_a_sample : output_path "out" "fasta" "../in/a.b.fast5" = "out/a.fasta".
Proof. reflexivity. Qed.

Lemma listed_file_is_named_after_its_entry_witness :
  snd (PosixPath.split (PosixPath.join "in" "a.fast5")) = "a.fast5"
  /\ output_path "out" "fasta" (PosixPath.join "in" "a.fast5")
     = PosixPath.join "out" (Str.split_first "." "a.fast5" +:+ "." +:+ "fasta")
  /\ forall other,
       output_path "out" "fasta" (PosixPath.join other "a.fast5")
       = output_path "out" "fasta" (PosixPath.join "in" "a.fast5").
Proof.
  apply (listed_file_is_named_after_its_entry "out" "fasta" "in" "a.fast5").
  reflexivity.
Defined.

Example input_files_of_the_sample :
  input_files MoreSample.listdir (Some ["x.fast5"]) (Some ["in"; "more/"])
  = Ok ["x.fast5"; "in/a.fast5"; "in/b.fast5"; "more/a.fast5"]
  /\ input_files MoreSample.listdir None (Some ["in"; "gone"; "more/"]) = Raise OSError
  /\ input_files MoreSample.listdir (Some []) None = Ok [].
Proof. by vm_compute. Qed.

Lemma start_time_is_read_back_witness :
  add_time_seconds "2022-01-01T00:00:00Z" (Datetime.Finite 0)
  = Ok "2022-01-01T00:00:00Z".
Proof.
  apply (start_time_is_read_back "2021-12-31T23:59:59Z" (Datetime.Finite (3 # 2))
           "2022-01-01T00:00:00Z").
  - by vm_compute.
  - reflexivity.
Defined.

Lemma whole_seconds_add_up_witness :
  add_time_seconds "2022-01-01T23:59:59Z" (Datetime.Finite (inject_Z (-20)))
  = add_time_seconds "2021-12-31T23:59:59Z" (Datetime.Finite (inject_Z (86400 + -20))).
Proof.
  apply (whole_seconds_add_up "2021-12-31T23:59:59Z" 86400 (-20) "2022-01-01T23:59:59Z").
  - by vm_compute.
  - reflexivity.
Defined.

Lemma start_time_is_monotone_witness :
  exists d1 d2,
    "2021-01-01T00:00:00Z" = Datetime.strftime d1
    /\ "2021-01-01T00:00:01Z" = Datetime.strftime d2
    /\ Datetime.check_fields d1 = true /\ Datetime.check_fields d2 = true
    /\ Datetime.to_seconds d1 <= Datetime.to_seconds d2.
Proof.
  apply (start_time_is_monotone "2021-01-01T00:00:00Z" (1 # 2) (3 # 2)).
  - by vm_compute.
  - by vm_compute.
  - by vm_compute.
Defined.

Lemma start_time_out_of_range_witness :
  let s := "9999-12-31T23:59:59Z" in
  let b := Datetime.mkDatetime 9999 12 31 23 59 59 0 in
  add_time_seconds s Datetime.Infinite = Raise OverflowError
  /\ add_time_seconds s Datetime.NaN = Raise ValueError
  /\ forall q,
       in_calendar (to_microseconds b
                    + Datetime.round_half_even (q * inject_Z 1000000)) = false ->
       add_time_seconds s (Datetime.Finite q) = Raise OverflowError.
Proof.
  apply (start_time_out_of_range "9999-12-31T23:59:59Z"
           (Datetime.mkDatetime 9999 12 31 23 59 59 0)).
  by vm_compute.
Defined.

Example start_time_past_the_calendar :
  add_time_seconds "9999-12-31T23:59:59Z" (Datetime.Finite 1) = Raise OverflowError
  /\ add_time_seconds "0001-01-01T00:00:00Z" (Datetime.Finite (-1 # 1000000))
     = Raise OverflowError.
Proof. by vm_compute. Qed.

Lemma constant_signal_has_no_scale_witness :
  rescale_signal (F := B32.t) (replicate 4 500) = replicate 4 S754_nan.
Proof. apply (constant_signal_has_no_scale 500 3). lia. Defined.

End MoreSamples.
